(** * The R <-> Python bridge of [src/python.cpp]

    A shallow embedding of the conversion engine ([py_to_r], [r_to_py]),
    the error bridge ([py_fetch_error]), the attribute classifier
    ([py_get_attribute_types]) and the bootstrap / file execution entry
    points ([py_initialize], [py_run_file]).

    Guest (Python 2) objects are an inductive type whose constructors are
    the object kinds the C API macros of the source can tell apart; host
    (R) values are an inductive type over the SEXP kinds the source reads
    or builds.  C [long] and [int] are [Z] with the wrap-around written
    out, C [double] is the kernel's binary64 [float], C strings are
    [string] cut at the first NUL. *)

From Stdlib Require Import ZArith List String Ascii Bool Lia.
From Stdlib Require Import PrimFloat SpecFloat FloatOps.
From Stdlib Require Import DecimalString.
Import ListNotations.

Local Open Scope string_scope.
Local Open Scope Z_scope.

Set Warnings "-register-all".

(** ** Outcomes of bridge code *)

(** A bridge function returns normally, raises a host fault with
    [Rcpp::stop], or hands a null [char*] to code that reads it as a C
    string, which C++ leaves undefined. *)
Inductive result (A : Type) : Type :=
| Ok (a : A)
| Stop (msg : string)
| Undefined.

Arguments Ok {A} a.
Arguments Stop {A} msg.
Arguments Undefined {A}.

Definition bind {A B : Type} (r : result A) (k : A -> result B) : result B :=
  match r with
  | Ok a => k a
  | Stop msg => Stop msg
  | Undefined => Undefined
  end.

Notation "x <- r ;; k" := (bind r (fun x => k))
  (at level 61, r at next level, right associativity).

(** ** C scalars *)

Definition LONG_MIN : Z := - 2 ^ 63.
Definition LONG_MAX : Z := 2 ^ 63 - 1.
Definition INT_MIN : Z := - 2 ^ 31.
Definition INT_MAX : Z := 2 ^ 31 - 1.

(** Conversion of a [long] to [int] on assignment: reduction modulo 2^32. *)
Definition int_of_long (z : Z) : Z := (z + 2 ^ 31) mod 2 ^ 32 - 2 ^ 31.

(** Conversion of an integer to [double]: round to nearest, ties to even. *)
Definition double_of_long (z : Z) : float :=
  SF2Prim (binary_normalize prec emax z 0 false).

(** The bytes a [const char*] denotes: up to, not including, the first NUL. *)
Fixpoint c_str (s : string) : string :=
  match s with
  | EmptyString => EmptyString
  | String c rest => if Ascii.eqb c Ascii.zero then EmptyString else String c (c_str rest)
  end.

(** [printf]'s [%d]. *)
Definition format_d (z : Z) : string := NilZero.string_of_int (Z.to_int z).

(** ** Guest values

    One constructor per kind of object that the C API checks of the source
    distinguish.  [PyBool] is the pair of singletons [Py_True] and
    [Py_False]; [PyInt] holds a C [long], [PyLong] an unbounded integer.
    A tuple carries the value of its [_fields] attribute when its type
    defines one (the named tuple convention).  An array carries its numpy
    type number, its shape and its elements in column-major index order.
    [PyInstance] is any other object: the module and name of its class,
    whether it is callable, and its attributes.  Reference counts are not
    part of the model.  A numpy boolean is one byte ([npy_bool] is
    [unsigned char]). *)

Inductive npy_scalar : Type :=
| NpyBool (byte : Z)
| NpyInt (z : Z)
| NpyFloat (f : float).

Inductive PyObject : Type :=
| Py_None
| PyBool (b : bool)
| PyInt (ob_ival : Z)
| PyLong (ob_digit : Z)
| PyFloat (ob_fval : float)
| PyString (ob_sval : string)
| PyList (ob_item : list PyObject)
| PyTuple (ob_item : list PyObject) (fields : option PyObject)
| PyDict (entries : list (PyObject * PyObject))
| PyArray (typenum : Z) (dims : list Z) (data : list npy_scalar)
| PyInstance (module name : string) (callable : bool)
             (attrs : list (string * PyObject)).

Definition Py_True : PyObject := PyBool true.
Definition Py_False : PyObject := PyBool false.

(** Pointer comparison with the [True] singleton. *)
Definition is_Py_True (x : PyObject) : bool :=
  match x with PyBool true => true | _ => false end.

(** *** Type checks of the C API.  [bool] is a subclass of [int]. *)

Definition PyBool_Check (x : PyObject) : bool :=
  match x with PyBool _ => true | _ => false end.
Definition PyInt_Check (x : PyObject) : bool :=
  match x with PyInt _ | PyBool _ => true | _ => false end.
Definition PyLong_Check (x : PyObject) : bool :=
  match x with PyLong _ => true | _ => false end.
Definition PyFloat_Check (x : PyObject) : bool :=
  match x with PyFloat _ => true | _ => false end.
Definition PyString_Check (x : PyObject) : bool :=
  match x with PyString _ => true | _ => false end.
Definition PyList_Check (x : PyObject) : bool :=
  match x with PyList _ => true | _ => false end.
Definition PyTuple_Check (x : PyObject) : bool :=
  match x with PyTuple _ _ => true | _ => false end.
Definition PyDict_Check (x : PyObject) : bool :=
  match x with PyDict _ => true | _ => false end.
Definition PyArray_Check (x : PyObject) : bool :=
  match x with PyArray _ _ _ => true | _ => false end.
Definition PyCallable_Check (x : PyObject) : bool :=
  match x with PyInstance _ _ c _ => c | _ => false end.

(** *** Accessors of the C API *)

(** [PyInt_AsLong]: the value of an [int]; a [long] that does not fit a C
    [long] yields -1 (with an [OverflowError] pending). *)
Definition PyInt_AsLong (x : PyObject) : Z :=
  match x with
  | PyInt v => v
  | PyBool b => Z.b2z b
  | PyLong v => if (LONG_MIN <=? v) && (v <=? LONG_MAX) then v else -1
  | _ => -1
  end.

Definition PyFloat_AsDouble (x : PyObject) : float :=
  match x with
  | PyFloat f => f
  | PyInt v => double_of_long v
  | PyBool b => double_of_long (Z.b2z b)
  | PyLong v => double_of_long v
  | _ => (-1)%float
  end.

(** [PyString_AsString]: the buffer of a string, [None] (a null pointer,
    with a [TypeError] pending) for any other object. *)
Definition PyString_AsString (x : PyObject) : option string :=
  match x with PyString s => Some s | _ => None end.

(** Reading a [char*] as a C string. *)
Definition read_c_string (p : option string) : result string :=
  match p with Some s => Ok (c_str s) | None => Undefined end.

Definition PyTuple_Size (x : PyObject) : Z :=
  match x with PyTuple items _ => Z.of_nat (List.length items) | _ => -1 end.

Fixpoint assoc {A : Type} (k : string) (l : list (string * A)) : option A :=
  match l with
  | [] => None
  | (k', v) :: l' => if String.eqb k k' then Some v else assoc k l'
  end.

(** Attribute lookup.  Attributes that the built-in types define on their
    own (methods and the like) are outside the model. *)
Definition PyObject_GetAttrString (x : PyObject) (name : string) : option PyObject :=
  match x with
  | PyTuple _ fields => if String.eqb name "_fields" then fields else None
  | PyInstance _ _ _ attrs => assoc name attrs
  | _ => None
  end.

Definition PyObject_HasAttrString (x : PyObject) (name : string) : Z :=
  match PyObject_GetAttrString x name with Some _ => 1 | None => 0 end.

(** Module and name of an object's class, as read through [__class__].
    The class of a tuple with [_fields] is reported as the built-in one. *)
Definition ob_type (x : PyObject) : string * string :=
  match x with
  | Py_None => ("__builtin__", "NoneType")
  | PyBool _ => ("__builtin__", "bool")
  | PyInt _ => ("__builtin__", "int")
  | PyLong _ => ("__builtin__", "long")
  | PyFloat _ => ("__builtin__", "float")
  | PyString _ => ("__builtin__", "str")
  | PyList _ => ("__builtin__", "list")
  | PyTuple _ _ => ("__builtin__", "tuple")
  | PyDict _ => ("__builtin__", "dict")
  | PyArray _ _ _ => ("numpy", "ndarray")
  | PyInstance m n _ _ => (m, n)
  end.

(** *** numpy type numbers ([numpy/ndarraytypes.h]) *)

Definition NPY_BOOL : Z := 0.
Definition NPY_BYTE : Z := 1.
Definition NPY_UBYTE : Z := 2.
Definition NPY_SHORT : Z := 3.
Definition NPY_USHORT : Z := 4.
Definition NPY_INT : Z := 5.
Definition NPY_UINT : Z := 6.
Definition NPY_LONG : Z := 7.
Definition NPY_ULONG : Z := 8.
Definition NPY_LONGLONG : Z := 9.
Definition NPY_ULONGLONG : Z := 10.
Definition NPY_FLOAT : Z := 11.
Definition NPY_DOUBLE : Z := 12.
Definition NPY_LONGDOUBLE : Z := 13.
Definition NPY_CFLOAT : Z := 14.
Definition NPY_CDOUBLE : Z := 15.
Definition NPY_CLONGDOUBLE : Z := 16.
Definition NPY_OBJECT : Z := 17.
Definition NPY_STRING : Z := 18.
Definition NPY_UNICODE : Z := 19.
Definition NPY_VOID : Z := 20.
Definition NPY_DATETIME : Z := 21.
Definition NPY_TIMEDELTA : Z := 22.
Definition NPY_HALF : Z := 23.

(** ** Host values

    R's vectors store logicals and integers as C [int] ([NA] is
    [INT_MIN]), reals as [double], and strings as CHARSXP cells.  Of the
    attributes only [dim], [names] and [class] are read by the bridge. *)

Definition NILSXP : Z := 0.
Definition CLOSXP : Z := 3.
Definition ENVSXP : Z := 4.
Definition LGLSXP : Z := 10.
Definition INTSXP : Z := 13.
Definition REALSXP : Z := 14.
Definition CPLXSXP : Z := 15.
Definition STRSXP : Z := 16.
Definition VECSXP : Z := 19.
Definition EXTPTRSXP : Z := 22.
Definition RAWSXP : Z := 24.

Definition NA_LOGICAL : Z := INT_MIN.
Definition NA_INTEGER : Z := INT_MIN.

Inductive CHARSXP : Type :=
| NA_STRING
| mkChar (s : string).

Definition CHAR (c : CHARSXP) : string :=
  match c with NA_STRING => "NA" | mkChar s => s end.

Record attributes : Type := mkAttributes {
  attr_dim : option (list Z);
  attr_names : option (list CHARSXP);
  attr_class : list string
}.

Definition no_attributes : attributes := mkAttributes None None [].

Inductive SEXP : Type :=
| R_NilValue
| RLogical (v : list Z) (a : attributes)
| RInteger (v : list Z) (a : attributes)
| RNumeric (v : list float) (a : attributes)
| RCharacter (v : list CHARSXP) (a : attributes)
| RList (v : list SEXP) (a : attributes)
| RExtPtr (p : PyObject) (a : attributes)
| ROther (type : Z) (a : attributes).

Definition sexp_type (x : SEXP) : Z :=
  match x with
  | R_NilValue => NILSXP
  | RLogical _ _ => LGLSXP
  | RInteger _ _ => INTSXP
  | RNumeric _ _ => REALSXP
  | RCharacter _ _ => STRSXP
  | RList _ _ => VECSXP
  | RExtPtr _ _ => EXTPTRSXP
  | ROther t _ => t
  end.

Definition LENGTH (x : SEXP) : Z :=
  match x with
  | RLogical v _ => Z.of_nat (List.length v)
  | RInteger v _ => Z.of_nat (List.length v)
  | RNumeric v _ => Z.of_nat (List.length v)
  | RCharacter v _ => Z.of_nat (List.length v)
  | RList v _ => Z.of_nat (List.length v)
  | _ => 0
  end.

Definition ATTRIB (x : SEXP) : attributes :=
  match x with
  | R_NilValue => no_attributes
  | RLogical _ a | RInteger _ a | RNumeric _ a | RCharacter _ a
  | RList _ a | RExtPtr _ a | ROther _ a => a
  end.

Definition isNULL (x : SEXP) : bool :=
  match x with R_NilValue => true | _ => false end.

Definition inherits (x : SEXP) (what : string) : bool :=
  existsb (String.eqb what) (attr_class (ATTRIB x)).

Definition has_dim (x : SEXP) : bool :=
  match attr_dim (ATTRIB x) with Some _ => true | None => false end.

Definition has_names (x : SEXP) : bool :=
  match attr_names (ATTRIB x) with Some _ => true | None => false end.

(** *** [Rcpp::wrap] at the C++ types the source passes it

    The overload is chosen by the static type of the argument: [bool]
    gives a logical vector, [double] a numeric one, [std::string] a
    character one.  For [long] Rcpp's [r_sexptype_traits<long>::rtype] is
    [REALSXP]: the value is cast to [double] and a numeric vector of
    length one is returned. *)

Definition wrap_bool (b : bool) : SEXP := RLogical [Z.b2z b] no_attributes.
Definition wrap_long (v : Z) : SEXP := RNumeric [double_of_long v] no_attributes.
Definition wrap_double (f : float) : SEXP := RNumeric [f] no_attributes.
Definition wrap_string (s : string) : SEXP := RCharacter [mkChar s] no_attributes.

(** ** Guest to host *)

(** [py_xptr]: an external pointer tagged with ["module.name"] of the
    object's class followed by ["py_object"]. *)
Definition py_xptr (object : PyObject) : SEXP :=
  let '(module_, name_) := ob_type object in
  RExtPtr object
    (mkAttributes None None [(module_ ++ "." ++ name_)%string; "py_object"]).

Definition py_is_none (object : PyObject) : bool :=
  match object with Py_None => true | _ => false end.

Definition r_scalar_type (x : PyObject) : Z :=
  if PyBool_Check x then LGLSXP
  else if PyInt_Check x || PyLong_Check x then INTSXP
  else if PyFloat_Check x then REALSXP
  else if PyString_Check x then STRSXP
  else NILSXP.

(** [scalar_list_type] on the items of a list: the loop from index 1
    returns [NILSXP] at the first item of another kind. *)
Definition scalar_list_type (items : list PyObject) : Z :=
  match items with
  | [] => NILSXP
  | first :: rest =>
      let scalarType := r_scalar_type first in
      if scalarType =? NILSXP then NILSXP
      else if forallb (fun next => r_scalar_type next =? scalarType) rest
           then scalarType
           else NILSXP
  end.

Definition mapM {A B : Type} (f : A -> result B) : list A -> result (list B) :=
  fix go (l : list A) : result (list B) :=
    match l with
    | [] => Ok []
    | a :: l' => b <- f a ;; bs <- go l' ;; Ok (b :: bs)
    end.

Definition py_tuple_to_character (tuple : PyObject) : result (list CHARSXP) :=
  match tuple with
  | PyTuple items _ =>
      mapM (fun item => s <- read_c_string (PyString_AsString item) ;;
                        Ok (mkChar s)) items
  | _ => Stop "negative length vectors are not allowed"
  end.

(** [list[name] = value] on an [Rcpp::List]: the first element of that
    name is replaced, otherwise the pair is appended. *)
Fixpoint set_by_name (l : list (string * SEXP)) (name : string) (value : SEXP)
  : list (string * SEXP) :=
  match l with
  | [] => [(name, value)]
  | (n, v) :: l' =>
      if String.eqb n name then (n, value) :: l'
      else (n, v) :: set_by_name l' name value
  end.

Definition named_list (l : list (string * SEXP)) : SEXP :=
  match l with
  | [] => RList [] no_attributes
  | _ => RList (map snd l)
               (mkAttributes None (Some (map (fun p => mkChar (fst p)) l)) [])
  end.

(** The [switch] on the array's type number: the type it is cast to. *)
Definition target_typenum (typenum : Z) : result Z :=
  if typenum =? NPY_BOOL then Ok NPY_BOOL
  else if (typenum =? NPY_BYTE) || (typenum =? NPY_UBYTE)
          || (typenum =? NPY_SHORT) || (typenum =? NPY_USHORT)
          || (typenum =? NPY_INT) || (typenum =? NPY_LONG) then Ok NPY_LONG
  else if (typenum =? NPY_FLOAT) || (typenum =? NPY_DOUBLE) then Ok NPY_DOUBLE
  else Stop ("Conversion from numpy array type " ++ format_d typenum
             ++ " is not supported")%string.

(** Element casts of [PyArray_CastToType]; the [switch] only ever casts
    within a family (boolean, integer, floating). *)
Definition npy_as_bool (e : npy_scalar) : Z :=
  match e with
  | NpyBool b => b
  | NpyInt z => Z.b2z (negb (z =? 0))
  | NpyFloat f => Z.b2z (negb (PrimFloat.eqb f 0%float))
  end.

Definition npy_as_long (e : npy_scalar) : Z :=
  match e with
  | NpyBool b => b
  | NpyInt z => z
  | NpyFloat _ => 0
  end.

Definition npy_as_double (e : npy_scalar) : float :=
  match e with
  | NpyBool b => double_of_long b
  | NpyInt z => double_of_long z
  | NpyFloat f => f
  end.

Definition array_attributes (dims : list Z) : attributes :=
  mkAttributes (Some (map int_of_long dims)) None [].

(** The [PyDict_Next] loop of [py_to_r], over the conversion [f] of a
    value: [list[PyString_AsString(key)] = f(value)]. *)
Definition dict_entries (f : PyObject -> result SEXP)
  : list (PyObject * PyObject) -> list (string * SEXP)
    -> result (list (string * SEXP)) :=
  fix next (es : list (PyObject * PyObject)) (rlist : list (string * SEXP))
    : result (list (string * SEXP)) :=
    match es with
    | [] => Ok rlist
    | (key, value) :: es' =>
        name <- read_c_string (PyString_AsString key) ;;
        v <- f value ;;
        next es' (set_by_name rlist name v)
    end.

(** [py_to_r].  The chain of [Py*_Check] tests after the scalar test is
    the [match] on the constructor.  Allocation failures of either runtime
    are not modelled, so the cast of an array to a supported type
    succeeds. *)
Fixpoint py_to_r (x : PyObject) : result SEXP :=
  if py_is_none x then Ok R_NilValue
  else
    let scalarType := r_scalar_type x in
    if negb (scalarType =? NILSXP) then
      if scalarType =? LGLSXP then Ok (wrap_bool (is_Py_True x))
      else if scalarType =? INTSXP then Ok (wrap_long (PyInt_AsLong x))
      else if scalarType =? REALSXP then Ok (wrap_double (PyFloat_AsDouble x))
      else if scalarType =? STRSXP then
        s <- read_c_string (PyString_AsString x) ;; Ok (wrap_string s)
      else Ok R_NilValue
    else
      match x with
      | PyList items =>
          let scalarType := scalar_list_type items in
          if scalarType =? REALSXP then
            Ok (RNumeric (map PyFloat_AsDouble items) no_attributes)
          else if scalarType =? INTSXP then
            Ok (RInteger (map (fun item => int_of_long (PyInt_AsLong item)) items)
                         no_attributes)
          else if scalarType =? LGLSXP then
            Ok (RLogical (map (fun item => Z.b2z (is_Py_True item)) items)
                         no_attributes)
          else if scalarType =? STRSXP then
            vec <- mapM (fun item => s <- read_c_string (PyString_AsString item) ;;
                                     Ok (mkChar s)) items ;;
            Ok (RCharacter vec no_attributes)
          else
            rlist <- mapM py_to_r items ;;
            Ok (RList rlist no_attributes)
      | PyTuple items _ =>
          let len := Z.of_nat (List.length items) in
          rlist <- mapM py_to_r items ;;
          if PyObject_HasAttrString x "_fields" =? 1 then
            match PyObject_GetAttrString x "_fields" with
            | Some fieldsAttr =>
                if PyTuple_Check fieldsAttr && (PyTuple_Size fieldsAttr =? len)
                then
                  names <- py_tuple_to_character fieldsAttr ;;
                  Ok (RList rlist (mkAttributes None (Some names) []))
                else Ok (RList rlist no_attributes)
            | None => Ok (RList rlist no_attributes)
            end
          else Ok (RList rlist no_attributes)
      | PyDict entries =>
          rlist <- dict_entries py_to_r entries [] ;;
          Ok (named_list rlist)
      | PyArray typenum dims data =>
          target <- target_typenum typenum ;;
          if target =? NPY_BOOL then
            Ok (RLogical (map npy_as_bool data) (array_attributes dims))
          else if target =? NPY_LONG then
            Ok (RInteger (map (fun e => int_of_long (npy_as_long e)) data)
                         (array_attributes dims))
          else
            Ok (RNumeric (map npy_as_double data) (array_attributes dims))
      | _ => Ok (py_xptr x)
      end.

(** ** Host to guest *)

Definition PyInt_FromLong (v : Z) : PyObject := PyInt v.
Definition PyFloat_FromDouble (v : float) : PyObject := PyFloat v.
Definition PyBool_FromLong (v : Z) : PyObject := PyBool (negb (v =? 0)).
Definition PyString_FromString (v : string) : PyObject := PyString (c_str v).

Definition is_key (k : PyObject) (key : string) : bool :=
  match k with PyString s => String.eqb s key | _ => false end.

(** [PyDict_SetItemString]: the value under the string key [key] is
    replaced, or the entry is added.  Entries are kept in the order
    [PyDict_Next] visits them, taken here to be insertion order. *)
Fixpoint PyDict_SetItemString (d : list (PyObject * PyObject)) (key : string)
    (item : PyObject) : list (PyObject * PyObject) :=
  match d with
  | [] => [(PyString key, item)]
  | (k, v) :: d' =>
      if is_key k key then (k, item) :: d'
      else (k, v) :: PyDict_SetItemString d' key item
  end.

(** Modelled from the spec: [PyObjectXPtr] is declared in
    [tensorflow_types.hpp], which is not among the sources.  It is the
    opaque wrapper, an external pointer owning one guest reference;
    [as<PyObjectXPtr>] of anything but an external pointer raises. *)
Definition as_PyObjectXPtr (sexp : SEXP) : result PyObject :=
  match sexp with
  | RExtPtr p _ => Ok p
  | _ => Stop "expecting an external pointer"
  end.

Definition PyArray_SIZE (dims : list Z) : Z := fold_right Z.mul 1 dims.

(** The bytes of a C [int] in memory (little-endian). *)
Definition int_bytes (i : Z) : list Z :=
  let u := i mod 2 ^ 32 in
  [u mod 256; (u / 256) mod 256; (u / 65536) mod 256; (u / 16777216) mod 256].

(** The array built over a host buffer: [PyArray_New] is given the
    address of the vector's data, so the array reads the first
    [PyArray_SIZE] items of its element size from there.  A logical
    vector stores C [int]s, of which an [NPY_BOOL] array reads single
    bytes. *)
Definition borrowed_array (typenum : Z) (dims : list Z) (buffer : list npy_scalar)
  : PyObject :=
  PyArray typenum dims (firstn (Z.to_nat (PyArray_SIZE dims)) buffer).

(** The loop that fills the dict of a named list, over the conversion
    [f] of an element: [names.at(i)] raises past the end of [names]. *)
Definition set_items (f : SEXP -> result PyObject)
  : list SEXP -> list CHARSXP -> list (PyObject * PyObject)
    -> result (list (PyObject * PyObject)) :=
  fix next (es : list SEXP) (ns : list CHARSXP)
      (dict : list (PyObject * PyObject))
    : result (list (PyObject * PyObject)) :=
    match es with
    | [] => Ok dict
    | e :: es' =>
        match ns with
        | [] => Stop "index out of bounds"
        | n :: ns' =>
            item <- f e ;;
            next es' ns' (PyDict_SetItemString dict (c_str (CHAR n)) item)
        end
    end.

(** [r_to_py].  The tests on [type] after the [dim] test are the [match]
    on the constructor.  Allocation failures are not modelled, so
    [PyArray_New], [PyList_New] and the [SetItem] calls on fresh
    containers succeed. *)
Fixpoint r_to_py (x : SEXP) : result PyObject :=
  if isNULL x then Ok Py_None
  else if inherits x "py_object" then as_PyObjectXPtr x
  else
    match attr_dim (ATTRIB x) with
    | Some dimAttrib =>
        match x with
        | RInteger v _ => Ok (borrowed_array NPY_INT dimAttrib (map NpyInt v))
        | RNumeric v _ => Ok (borrowed_array NPY_DOUBLE dimAttrib (map NpyFloat v))
        | RLogical v _ =>
            Ok (borrowed_array NPY_BOOL dimAttrib (map NpyBool (flat_map int_bytes v)))
        | _ => Stop ("Matrix type cannot be converted to python (only integer, "
                     ++ "numeric, and logical matrixes can be converted")%string
        end
    | None =>
        match x with
        | RInteger v _ =>
            match v with
            | [value] => Ok (PyInt_FromLong value)
            | _ => Ok (PyList (map PyInt_FromLong v))
            end
        | RNumeric v _ =>
            match v with
            | [value] => Ok (PyFloat_FromDouble value)
            | _ => Ok (PyList (map PyFloat_FromDouble v))
            end
        | RLogical v _ =>
            match v with
            | [value] => Ok (PyBool_FromLong value)
            | _ => Ok (PyList (map PyBool_FromLong v))
            end
        | RCharacter v _ =>
            match v with
            | [value] => Ok (PyString_FromString (CHAR value))
            | _ => Ok (PyList (map (fun e => PyString_FromString (CHAR e)) v))
            end
        | RList v a =>
            match attr_names a with
            | Some names =>
                dict <- set_items r_to_py v names [] ;;
                Ok (PyDict dict)
            | None =>
                tuple <- mapM r_to_py v ;;
                Ok (PyTuple tuple None)
            end
        | _ => Stop "Unable to convert R object to python type"
        end
    end.

(** ** The guest's error indicator and the error bridge *)

(** The pending exception of the interpreter: type, value and traceback,
    each possibly null. *)
Record PyErrState : Type := mkErr {
  curexc_type : option PyObject;
  curexc_value : option PyObject;
  curexc_traceback : option PyObject
}.

Definition no_error : PyErrState := mkErr None None None.

(** A C API call returns its value, or null with an exception pending. *)
Inductive api (A : Type) : Type :=
| Returned (a : A)
| Raised (err : PyErrState).

Arguments Returned {A} a.
Arguments Raised {A} err.

(** [PyErr_Fetch] hands over the three references and clears the
    indicator. *)
Definition PyErr_Fetch (tstate : PyErrState)
  : (option PyObject * option PyObject * option PyObject) * PyErrState :=
  ((curexc_type tstate, curexc_value tstate, curexc_traceback tstate), no_error).

(** Attribute kinds reported to the host ([py_get_attribute_types]). *)
Definition VECTOR : Z := 1.
Definition ARRAY : Z := 2.
Definition LIST : Z := 4.
Definition FUNCTION : Z := 6.

Definition attribute_type (attr : PyObject) : Z :=
  if PyCallable_Check attr then FUNCTION
  else if PyList_Check attr || PyTuple_Check attr || PyDict_Check attr then LIST
  else if PyArray_Check attr then ARRAY
  else if PyBool_Check attr || PyInt_Check attr || PyLong_Check attr
          || PyFloat_Check attr || PyString_Check attr then VECTOR
  else LIST.

(** *** The world outside the bridge *)

(** [dlopen] modes ([dlfcn.h]). *)
Definition RTLD_LAZY : Z := 1.
Definition RTLD_NOW : Z := 2.
Definition RTLD_GLOBAL : Z := 256.

(** Calls that leave the process, in the order they are made. *)
Inductive event : Type :=
| Ev_dlopen (filename : string) (flags : Z)
| Ev_dlerror
| Ev_Py_Initialize
| Ev_PySys_SetArgv (argv : list string)
| Ev_import_array
| Ev_path_expand (file : string)
| Ev_fopen (path mode : string)
| Ev_PyRun_SimpleFile (filename : string).

(** What those calls answer: whether [__APPLE__] is defined, whether
    [dlopen] and [fopen] return a non-null pointer, the text of
    [dlerror], the outcome of numpy's [import_array1], the host's
    [path.expand], and the status and pending error [PyRun_SimpleFile]
    leaves. *)
Record system : Type := mkSystem {
  APPLE : bool;
  dlopen : string -> Z -> bool;
  dlerror : string;
  import_array : api unit;
  path_expand : string -> string;
  fopen : string -> string -> bool;
  PyRun_SimpleFile : string -> Z * PyErrState
}.

(** A computation that records the calls it makes. *)
Definition io (A : Type) : Type := (list event * result A)%type.

Definition io_ret {A : Type} (a : A) : io A := ([], Ok a).
Definition io_stop {A : Type} (r : result string) : io A :=
  ([], match r with Ok msg => Stop msg | Stop msg => Stop msg | Undefined => Undefined end).
Definition io_call {A : Type} (e : event) (answer : A) : io A := ([e], Ok answer).
Definition io_bind {A B : Type} (m : io A) (k : A -> io B) : io B :=
  match m with
  | (t, Ok a) => let '(t', r) := k a in ((t ++ t')%list, r)
  | (t, Stop msg) => (t, Stop msg)
  | (t, Undefined) => (t, Undefined)
  end.

Notation "x <-- m ;; k" := (io_bind m (fun x => k))
  (at level 61, m at next level, right associativity).

Section Guest.

(** The guest's [str()], and the exception a failed attribute lookup
    leaves pending. *)
Variable PyObject_Str : PyObject -> api PyObject.
Variable AttributeError : PyObject -> string -> PyErrState.

(** [py_fetch_error]: the message, and the indicator afterwards. *)
Definition py_fetch_error (tstate : PyErrState) : result string * PyErrState :=
  let '((excType, excValue, excTraceback), tstate) := PyErr_Fetch tstate in
  match excValue with
  | Some pExcValue =>
      match PyObject_Str pExcValue with
      | Returned pStr => (read_c_string (PyString_AsString pStr), tstate)
      | Raised err => (Undefined, err)
      end
  | None => (Ok "<unknown error>", tstate)
  end.

(** [stop(py_fetch_error())] *)
Definition stop_py_error {A : Type} (tstate : PyErrState) : result A :=
  match fst (py_fetch_error tstate) with
  | Ok msg => Stop msg
  | Stop msg => Stop msg
  | Undefined => Undefined
  end.

Definition py_get_attr (x : PyObject) (name : string) : result SEXP :=
  match PyObject_GetAttrString x name with
  | Some attr => Ok (py_xptr attr)
  | None => stop_py_error (AttributeError x name)
  end.

Definition py_get_attribute_types (x : PyObject) (attributes : list string)
  : result SEXP :=
  types <- mapM (fun name =>
                   attr <- py_get_attr x name ;;
                   p <- as_PyObjectXPtr attr ;;
                   Ok (attribute_type p)) attributes ;;
  Ok (RInteger types no_attributes).

Variable sys : system.

(** [py_import_numpy_array_api]: whether [import_array1] succeeded,
    and the error it leaves pending when it did not. *)
Definition py_import_numpy_array_api : io (bool * PyErrState) :=
  r <-- io_call Ev_import_array (import_array sys) ;;
  match r with
  | Returned _ => io_ret (true, no_error)
  | Raised err => io_ret (false, err)
  end.

Definition py_initialize (pythonSharedLibrary : string) : io unit :=
  _ <-- (if APPLE sys then io_ret tt
         else
           let flags := Z.lor RTLD_NOW RTLD_GLOBAL in
           lib <-- io_call (Ev_dlopen pythonSharedLibrary flags)
                           (dlopen sys pythonSharedLibrary flags) ;;
           if lib then io_ret tt
           else
             err <-- io_call Ev_dlerror (dlerror sys) ;;
             io_stop (Ok err)) ;;
  _ <-- io_call Ev_Py_Initialize tt ;;
  _ <-- io_call (Ev_PySys_SetArgv ["python"]) tt ;;
  r <-- py_import_numpy_array_api ;;
  if negb (fst r) then io_stop (fst (py_fetch_error (snd r)))
  else io_ret tt.

Definition py_run_file (file : string) : io unit :=
  expanded <-- io_call (Ev_path_expand file) (path_expand sys file) ;;
  fp <-- io_call (Ev_fopen expanded "r") (fopen sys expanded "r") ;;
  if fp then
    res <-- io_call (Ev_PyRun_SimpleFile expanded) (PyRun_SimpleFile sys expanded) ;;
    if negb (fst res =? 0) then io_stop (fst (py_fetch_error (snd res)))
    else io_ret tt
  else
    io_stop (Ok ("Unable to read script file '" ++ file
                 ++ "' (does the file exist?)")%string).

End Guest.

(** ** Calls, imports and string forms *)

Section Calls.

(** The guest's [str()], its call protocol, its importer and its
    evaluation of source text in [__main__]. *)
Variable PyObject_Str : PyObject -> api PyObject.
Variable PyObject_Call : PyObject -> PyObject -> PyObject -> api PyObject.
Variable PyImport_ImportModule : string -> api PyObject.
Variable PyRun_String : string -> api PyObject.

(** [py_str]: a character vector of length one. *)
Definition py_str (x : PyObject) : result SEXP :=
  match PyObject_Str x with
  | Returned str =>
      s <- read_c_string (PyString_AsString str) ;;
      Ok (RCharacter [mkChar s] no_attributes)
  | Raised err => stop_py_error PyObject_Str err
  end.

(** [py_call] on the callable [x], the elements [args] of the list of
    positional arguments, and the elements and [names] attribute of the
    list of keywords.  The names are read only when there are keywords;
    for a list without names no name can be read, and the fault is
    raised before the first keyword is converted. *)
Definition py_call (x : PyObject) (args : list SEXP) (keywords : list SEXP)
    (keyword_names : option (list CHARSXP)) : result SEXP :=
  pyArgs <- mapM r_to_py args ;;
  pyKeywords <-
    (if (0 <? Z.of_nat (List.length keywords)) then
       match keyword_names with
       | Some names => set_items r_to_py keywords names []
       | None => Stop "not compatible with STRSXP"
       end
     else Ok []) ;;
  match PyObject_Call x (PyTuple pyArgs None) (PyDict pyKeywords) with
  | Returned res => py_to_r res
  | Raised err => stop_py_error PyObject_Str err
  end.

Definition py_import (module : string) : result SEXP :=
  match PyImport_ImportModule (c_str module) with
  | Returned pModule => Ok (py_xptr pModule)
  | Raised err => stop_py_error PyObject_Str err
  end.

Definition py_run_string (code : string) : result unit :=
  match PyRun_String (c_str code) with
  | Returned _ => Ok tt
  | Raised err => stop_py_error PyObject_Str err
  end.

(** [PyDict_SetItem] on the entries of a dict: the entries afterwards
    (the same entries when the key cannot be hashed; [py_dict] does not
    look at the status). *)
Variable PyDict_SetItem :
  list (PyObject * PyObject) -> PyObject -> PyObject -> list (PyObject * PyObject).

(** [py_dict]: [keys.at(i)] is within bounds by the loop's test,
    [items.at(i)] raises past the end of [items]. *)
Definition py_dict (keys items : list SEXP) : result SEXP :=
  dict <- (fix next (keys items : list SEXP) (dict : list (PyObject * PyObject))
             : result (list (PyObject * PyObject)) :=
             match keys with
             | [] => Ok dict
             | k :: keys' =>
                 key <- r_to_py k ;;
                 match items with
                 | [] => Stop "index out of bounds"
                 | i :: items' =>
                     item <- r_to_py i ;;
                     next keys' items' (PyDict_SetItem dict key item)
                 end
             end) keys items [] ;;
  Ok (py_xptr (PyDict dict)).

End Calls.

(** ** Statement vocabulary *)

(** The host's typed vectors: logical, integer, numeric, character. *)
Definition is_typed_vector (x : SEXP) : bool :=
  match x with
  | RLogical _ _ | RInteger _ _ | RNumeric _ _ | RCharacter _ _ => true
  | _ => false
  end.

Definition is_scalar_kind (k : Z) : Prop :=
  k = LGLSXP \/ k = INTSXP \/ k = REALSXP \/ k = STRSXP.

(** Every item is a scalar, and two of them differ in kind. *)
Definition mixes_scalar_kinds (items : list PyObject) : Prop :=
  Forall (fun o => r_scalar_type o <> NILSXP) items /\
  exists a b, In a items /\ In b items /\ r_scalar_type a <> r_scalar_type b.

(** Host to guest and back. *)
Definition roundtrip (x : SEXP) : result SEXP := g <- r_to_py x ;; py_to_r g.

(** No NUL byte: what R guarantees of every string it holds. *)
Definition no_NUL (s : string) : Prop := ~ In Ascii.zero (list_ascii_of_string s).

(** The array type numbers by what the [switch] does with them. *)
Definition casts_to_long (typenum : Z) : Prop :=
  typenum = NPY_BYTE \/ typenum = NPY_UBYTE \/ typenum = NPY_SHORT \/
  typenum = NPY_USHORT \/ typenum = NPY_INT \/ typenum = NPY_LONG.

Definition casts_to_double (typenum : Z) : Prop :=
  typenum = NPY_FLOAT \/ typenum = NPY_DOUBLE.

Definition supported_typenum (typenum : Z) : Prop :=
  typenum = NPY_BOOL \/ casts_to_long typenum \/ casts_to_double typenum.

(** The two groups of checks the attribute classifier joins by [||]. *)
Definition is_list_like (attr : PyObject) : bool :=
  PyList_Check attr || PyTuple_Check attr || PyDict_Check attr.

Definition is_scalar (attr : PyObject) : bool :=
  PyBool_Check attr || PyInt_Check attr || PyLong_Check attr
  || PyFloat_Check attr || PyString_Check attr.

(** The message for a value with [dim] that has no array form. *)
Definition matrix_fault : string :=
  ("Matrix type cannot be converted to python (only integer, "
   ++ "numeric, and logical matrixes can be converted")%string.

Definition is_generic_list (x : SEXP) : bool :=
  match x with RList _ _ => true | _ => false end.

(** The dict a named list becomes: one [PyDict_SetItemString] per
    element, in order, under the element's name. *)
Definition dict_of (names : list CHARSXP) (items : list PyObject)
  : list (PyObject * PyObject) :=
  fold_left (fun dict p => PyDict_SetItemString dict (c_str (CHAR (fst p))) (snd p))
            (combine names items) [].

Definition string_keys (dict : list (PyObject * PyObject)) : Prop :=
  Forall (fun kv => PyString_Check (fst kv) = true) dict.

(** Guest to host and back. *)
Definition guest_roundtrip (g : PyObject) : result PyObject :=
  h <- py_to_r g ;; r_to_py h.

(** The values of a C [int]. *)
Definition in_int_range (z : Z) : Prop := INT_MIN <= z <= INT_MAX.



(** A typed vector as R itself makes it, apart from missing values in
    logical and character vectors: integers are C [int]s, logicals are 0
    or 1, strings hold no NUL byte. *)
Definition plain_elements (x : SEXP) : Prop :=
  match x with
  | RInteger v _ => Forall in_int_range v
  | RLogical v _ => Forall (fun i => i = 0 \/ i = 1) v
  | RCharacter v _ => Forall (fun c => exists s, c = mkChar s /\ no_NUL s) v
  | _ => True
  end.

(** The same vector with other attributes. *)
Definition with_attributes (x : SEXP) (a : attributes) : SEXP :=
  match x with
  | R_NilValue => R_NilValue
  | RLogical v _ => RLogical v a
  | RInteger v _ => RInteger v a
  | RNumeric v _ => RNumeric v a
  | RCharacter v _ => RCharacter v a
  | RList v _ => RList v a
  | RExtPtr p _ => RExtPtr p a
  | ROther t _ => ROther t a
  end.



(** ** Example inputs *)

(** [str()] on strings only, for the examples. *)
Definition str_of_strings (value : PyObject) : api PyObject :=
  match value with
  | PyString s => Returned (PyString s)
  | _ => Raised (mkErr (Some (PyInstance "exceptions" "TypeError" false [])) None None)
  end.

Definition pending_ValueError : PyErrState :=
  mkErr (Some (PyInstance "exceptions" "ValueError" false []))
        (Some (PyString "invalid literal for int() with base 10: 'x'"))
        None.

Definition pending_without_value : PyErrState :=
  mkErr (Some (PyInstance "exceptions" "KeyError" false [])) None None.

(** A Linux system on which every library loads and numpy imports. *)
Definition linux_ok : system :=
  mkSystem false (fun _ _ => true) "" (Returned tt) (fun p => p)
           (fun _ _ => true) (fun _ => (0, no_error)).

(** A Linux system on which no library can be loaded. *)
Definition linux_no_lib : system :=
  mkSystem false (fun _ _ => false)
           "libpython2.7.so: cannot open shared object file: No such file or directory"
           (Returned tt) (fun p => p) (fun _ _ => true) (fun _ => (0, no_error)).

(** A system whose [path.expand] replaces a leading tilde by a home
    directory and on which no file can be opened. *)
Definition expand_tilde (p : string) : string :=
  match p with
  | String "~" rest => ("/home/user" ++ rest)%string
  | _ => p
  end.

Definition no_files : system :=
  mkSystem false (fun _ _ => true) "" (Returned tt) expand_tilde
           (fun _ _ => false) (fun _ => (0, no_error)).

(** A module-like object with one attribute of each kind. *)
Definition example_module : PyObject :=
  PyInstance "__builtin__" "module" false
    [("sqrt", PyInstance "__builtin__" "builtin_function_or_method" true []);
     ("shape", PyTuple [PyInt 2; PyInt 3] None);
     ("values", PyArray NPY_DOUBLE [1] [NpyFloat 1%float]);
     ("version", PyString "1.11");
     ("flags", PyInstance "numpy" "flagsobj" false [])].

Definition no_such_attribute (x : PyObject) (name : string) : PyErrState :=
  mkErr (Some (PyInstance "exceptions" "AttributeError" false []))
        (Some (PyString name)) None.

(** A named list of an integer scalar and a character vector. *)
Definition example_named_list : SEXP :=
  RList [RInteger [1] no_attributes;
         RCharacter [mkChar "x"; mkChar "y"] no_attributes]
        (mkAttributes None (Some [mkChar "a"; mkChar "b"]) []).

(** A guest in which calling anything raises the pending [ValueError]. *)
Definition always_raises (f args kw : PyObject) : api PyObject :=
  Raised pending_ValueError.

(** A guest in which every callable returns its first positional
    argument. *)
Definition returns_first_argument (f args kw : PyObject) : api PyObject :=
  match args with
  | PyTuple (first :: _) _ => Returned first
  | _ => Returned Py_None
  end.

(** A guest whose callables return the value passed as keyword [x]. *)
Definition returns_keyword_x (f args kw : PyObject) : api PyObject :=
  match kw with
  | PyDict ((PyString "x", value) :: _) => Returned value
  | _ => Returned Py_None
  end.

(** An Apple system on which no library can be loaded. *)
Definition apple_no_lib : system :=
  mkSystem true (fun _ _ => false) "image not found" (Returned tt) (fun p => p)
           (fun _ _ => true) (fun _ => (0, no_error)).

(** A Linux system without numpy. *)
Definition linux_no_numpy : system :=
  mkSystem false (fun _ _ => true) ""
           (Raised (mkErr (Some (PyInstance "exceptions" "ImportError" false []))
                          (Some (PyString "numpy.core.multiarray failed to import"))
                          None))
           (fun p => p) (fun _ _ => true) (fun _ => (0, no_error)).

(** A system on which every file opens and every script fails, the
    interpreter having printed and cleared the error. *)
Definition scripts_fail : system :=
  mkSystem false (fun _ _ => true) "" (Returned tt) expand_tilde
           (fun _ _ => true) (fun _ => (-1, no_error)).

(** ** Lemmas on the building blocks *)

Lemma mapM_Ok_iff {A B : Type} (f : A -> result B) (l : list A) (bs : list B) :
  mapM f l = Ok bs <-> Forall2 (fun a b => f a = Ok b) l bs.
Proof.
  revert bs; induction l as [|a l IH]; intros bs; simpl.
  - split.
    + intros H; inversion H; constructor.
    + intros H; inversion H; reflexivity.
  - split.
    + destruct (f a) as [b| |] eqn:Ea; simpl; try discriminate.
      destruct (mapM f l) as [bs'| |] eqn:El; simpl; try discriminate.
      intros H; inversion H; subst. constructor; [exact Ea | apply IH; reflexivity].
    + intros H; inversion H as [|a' b l' bs' Hab Hrest]; subst.
      rewrite Hab; simpl. apply IH in Hrest. rewrite Hrest. reflexivity.
Qed.

Lemma mapM_length {A B : Type} (f : A -> result B) (l : list A) (bs : list B) :
  mapM f l = Ok bs -> List.length bs = List.length l.
Proof.
  intros H. apply mapM_Ok_iff in H. symmetry. eapply Forall2_length; eassumption.
Qed.

Lemma mapM_total {A B : Type} (f : A -> result B) (l : list A) :
  Forall (fun a => exists b, f a = Ok b) l -> exists bs, mapM f l = Ok bs.
Proof.
  induction 1 as [|a l [b Hb] _ [bs Hbs]]; simpl.
  - eexists; reflexivity.
  - rewrite Hb; simpl. rewrite Hbs; simpl. eexists; reflexivity.
Qed.

Lemma r_scalar_type_cases (x : PyObject) :
  r_scalar_type x = NILSXP \/ is_scalar_kind (r_scalar_type x).
Proof.
  unfold is_scalar_kind; destruct x; cbv; tauto.
Qed.

Lemma r_scalar_type_STRSXP (x : PyObject) :
  r_scalar_type x = STRSXP -> exists s, x = PyString s.
Proof.
  destruct x; cbv; try discriminate. intros _; eexists; reflexivity.
Qed.

Lemma py_to_r_scalar_total (x : PyObject) :
  r_scalar_type x <> NILSXP -> exists r, py_to_r x = Ok r.
Proof.
  destruct x; intros H; try (exfalso; apply H; reflexivity);
    eexists; reflexivity.
Qed.

Lemma scalar_list_type_homogeneous (k : Z) (items : list PyObject) :
  k <> NILSXP -> items <> [] ->
  Forall (fun o => r_scalar_type o = k) items ->
  scalar_list_type items = k.
Proof.
  intros Hk Hne Hall. destruct items as [|first rest]; [congruence|].
  inversion Hall as [|? ? Hfirst Hrest]; subst. unfold scalar_list_type.
  destruct (Z.eqb_spec (r_scalar_type first) NILSXP) as [E|_]; [congruence|].
  replace (forallb _ rest) with true; [reflexivity|].
  symmetry. apply forallb_forall. intros o Ho.
  rewrite Forall_forall in Hrest. rewrite (Hrest o Ho). apply Z.eqb_refl.
Qed.

Lemma scalar_list_type_mixed (items : list PyObject) :
  (exists a b, In a items /\ In b items /\ r_scalar_type a <> r_scalar_type b) ->
  scalar_list_type items = NILSXP.
Proof.
  intros (a & b & Ha & Hb & Hab). destruct items as [|first rest]; [reflexivity|].
  unfold scalar_list_type.
  destruct (Z.eqb_spec (r_scalar_type first) NILSXP) as [_|_]; [reflexivity|].
  destruct (forallb _ rest) eqn:Hall; [|reflexivity].
  exfalso. rewrite forallb_forall in Hall.
  assert (Hsame : forall o, In o (first :: rest) -> r_scalar_type o = r_scalar_type first).
  { intros o [<-|Ho]; [reflexivity|]. apply Z.eqb_eq, Hall, Ho. }
  apply Hab. rewrite (Hsame a Ha), (Hsame b Hb). reflexivity.
Qed.

(** The list branch of [py_to_r], spelled out. *)
Lemma py_to_r_list (items : list PyObject) :
  py_to_r (PyList items) =
  let scalarType := scalar_list_type items in
  if scalarType =? REALSXP then
    Ok (RNumeric (map PyFloat_AsDouble items) no_attributes)
  else if scalarType =? INTSXP then
    Ok (RInteger (map (fun item => int_of_long (PyInt_AsLong item)) items) no_attributes)
  else if scalarType =? LGLSXP then
    Ok (RLogical (map (fun item => Z.b2z (is_Py_True item)) items) no_attributes)
  else if scalarType =? STRSXP then
    vec <- mapM (fun item => s <- read_c_string (PyString_AsString item) ;;
                             Ok (mkChar s)) items ;;
    Ok (RCharacter vec no_attributes)
  else
    rlist <- mapM py_to_r items ;;
    Ok (RList rlist no_attributes).
Proof. reflexivity. Qed.

(** ** Lists: promotion to typed vectors *)

Lemma py_to_r_list_strings (items : list PyObject) :
  Forall (fun o => r_scalar_type o = STRSXP) items ->
  exists vec,
    mapM (fun item => s <- read_c_string (PyString_AsString item) ;;
                      Ok (mkChar s)) items = Ok vec.
Proof.
  intros H. apply mapM_total. eapply Forall_impl; [|exact H].
  intros o Ho. destruct (r_scalar_type_STRSXP o Ho) as [s ->].
  eexists; reflexivity.
Qed.

Lemma py_to_r_list_generic (items : list PyObject) :
  scalar_list_type items = NILSXP ->
  py_to_r (PyList items) = (rlist <- mapM py_to_r items ;; Ok (RList rlist no_attributes)).
Proof.
  intros H. rewrite py_to_r_list. cbv zeta. rewrite H. reflexivity.
Qed.

(** C2.  A guest list of N >= 1 items that all have one scalar kind
    (logical, integer, real or string) converts to the host typed vector
    of that kind, of length N and without attributes.  An empty list, and
    a list of scalars of more than one kind, converts to a host generic
    list without names whose elements are the converted items, in order. *)
Theorem C2_list_promotion (items : list PyObject) :
  (forall k, is_scalar_kind k -> items <> [] ->
     Forall (fun o => r_scalar_type o = k) items ->
     exists v, py_to_r (PyList items) = Ok v /\
               is_typed_vector v = true /\ sexp_type v = k /\
               LENGTH v = Z.of_nat (List.length items) /\
               ATTRIB v = no_attributes) /\
  (items = [] \/ mixes_scalar_kinds items ->
     exists rs, Forall2 (fun o r => py_to_r o = Ok r) items rs /\
                py_to_r (PyList items) = Ok (RList rs no_attributes)).
Proof.
  split.
  - intros k Hk Hne Hall.
    assert (Hnil : k <> NILSXP) by (destruct Hk as [->|[->|[->| ->]]]; discriminate).
    rewrite py_to_r_list. cbv zeta.
    rewrite (scalar_list_type_homogeneous k items Hnil Hne Hall).
    destruct Hk as [->|[->|[->| ->]]]; simpl.
    + eexists; repeat split; simpl; now rewrite ?length_map.
    + eexists; repeat split; simpl; now rewrite ?length_map.
    + eexists; repeat split; simpl; now rewrite ?length_map.
    + destruct (py_to_r_list_strings items Hall) as [vec Hvec].
      rewrite Hvec; simpl. eexists; repeat split; simpl.
      now rewrite (mapM_length _ _ _ Hvec).
  - intros H.
    assert (Hty : scalar_list_type items = NILSXP).
    { destruct H as [->|[_ Hmix]]; [reflexivity|]. now apply scalar_list_type_mixed. }
    assert (Hconv : exists rs, mapM py_to_r items = Ok rs).
    { apply mapM_total. destruct H as [->|[Hsc _]]; [constructor|].
      eapply Forall_impl; [|exact Hsc]. intros o. apply py_to_r_scalar_total. }
    destruct Hconv as [rs Hrs]. exists rs. split.
    + now apply mapM_Ok_iff.
    + rewrite (py_to_r_list_generic items Hty), Hrs. reflexivity.
Qed.

Lemma C2_list_promotion_witness :
  (exists v, py_to_r (PyList [PyInt 2; PyLong 3; PyInt 4]) = Ok v /\
             is_typed_vector v = true /\ sexp_type v = INTSXP /\
             LENGTH v = 3 /\ ATTRIB v = no_attributes) /\
  (exists rs, Forall2 (fun o r => py_to_r o = Ok r) [PyInt 2; PyString "a"] rs /\
              py_to_r (PyList [PyInt 2; PyString "a"]) = Ok (RList rs no_attributes)).
Proof.
  split.
  - apply (proj1 (C2_list_promotion [PyInt 2; PyLong 3; PyInt 4]) INTSXP).
    + right; left; reflexivity.
    + discriminate.
    + repeat constructor.
  - apply (proj2 (C2_list_promotion [PyInt 2; PyString "a"])).
    right. split.
    + repeat constructor; discriminate.
    + exists (PyInt 2), (PyString "a"). simpl. repeat split; auto. discriminate.
Defined.

(** ** Tuples and named tuples *)

(** The tuple branch of [py_to_r], spelled out. *)
Lemma py_to_r_tuple (items : list PyObject) (fields : option PyObject) :
  py_to_r (PyTuple items fields) =
  (rlist <- mapM py_to_r items ;;
   match fields with
   | Some fieldsAttr =>
       if PyTuple_Check fieldsAttr
          && (PyTuple_Size fieldsAttr =? Z.of_nat (List.length items))
       then names <- py_tuple_to_character fieldsAttr ;;
            Ok (RList rlist (mkAttributes None (Some names) []))
       else Ok (RList rlist no_attributes)
   | None => Ok (RList rlist no_attributes)
   end).
Proof.
  destruct fields as [f|]; reflexivity.
Qed.

Lemma py_tuple_to_character_strings (names : list string) (f : option PyObject) :
  py_tuple_to_character (PyTuple (map PyString names) f)
  = Ok (map (fun s => mkChar (c_str s)) names).
Proof.
  unfold py_tuple_to_character.
  induction names as [|s names IH]; simpl; [reflexivity|].
  rewrite IH. reflexivity.
Qed.

(** A tuple without [_fields], or whose [_fields] is not a tuple of the
    same length, converts to a generic list without names. *)
Lemma py_to_r_tuple_plain (items : list PyObject) (fields : option PyObject)
    (rs : list SEXP) :
  Forall2 (fun o r => py_to_r o = Ok r) items rs ->
  match fields with
  | Some f => PyTuple_Check f && (PyTuple_Size f =? Z.of_nat (List.length items)) = false
  | None => True
  end ->
  py_to_r (PyTuple items fields) = Ok (RList rs no_attributes).
Proof.
  intros Hrs Hf. rewrite py_to_r_tuple.
  apply mapM_Ok_iff in Hrs. rewrite Hrs; simpl.
  destruct fields as [f|]; [rewrite Hf|]; reflexivity.
Qed.

(** A tuple whose [_fields] is a tuple of strings of the same length
    converts to a generic list that carries those strings as names. *)
Lemma py_to_r_tuple_named (items : list PyObject) (names : list string)
    (f : option PyObject) (rs : list SEXP) :
  Forall2 (fun o r => py_to_r o = Ok r) items rs ->
  List.length names = List.length items ->
  py_to_r (PyTuple items (Some (PyTuple (map PyString names) f)))
  = Ok (RList rs (mkAttributes None (Some (map (fun s => mkChar (c_str s)) names)) [])).
Proof.
  intros Hrs Hlen. rewrite py_to_r_tuple.
  apply mapM_Ok_iff in Hrs. rewrite Hrs; simpl.
  rewrite length_map, Hlen, Z.eqb_refl; simpl.
  change (mapM _ (map PyString names))
    with (py_tuple_to_character (PyTuple (map PyString names) f)).
  rewrite py_tuple_to_character_strings. reflexivity.
Qed.

(** When [py_tuple_to_character] returns, every item was a string. *)
Lemma py_tuple_to_character_Ok (items : list PyObject) (f : option PyObject)
    (names : list CHARSXP) :
  py_tuple_to_character (PyTuple items f) = Ok names ->
  exists strs, items = map PyString strs /\
               names = map (fun s => mkChar (c_str s)) strs.
Proof.
  unfold py_tuple_to_character. revert names.
  induction items as [|item items IH]; simpl; intros names H.
  - exists []. inversion H. split; reflexivity.
  - destruct item; simpl in H; try discriminate H.
    destruct (mapM _ items) as [ns| |] eqn:E; simpl in H; try discriminate H.
    destruct (IH ns eq_refl) as (strs & -> & ->).
    exists (ob_sval :: strs). inversion H. split; reflexivity.
Qed.

(** Whenever the conversion of a tuple returns a list with names,
    [_fields] was a tuple of strings of the tuple's length, and the
    names are those strings. *)
Lemma py_to_r_tuple_names_only_if (items : list PyObject)
    (fields : option PyObject) (rs : list SEXP) (a : attributes)
    (names : list CHARSXP) :
  py_to_r (PyTuple items fields) = Ok (RList rs a) ->
  attr_names a = Some names ->
  exists strs f,
    fields = Some (PyTuple (map PyString strs) f) /\
    List.length strs = List.length items /\
    names = map (fun s => mkChar (c_str s)) strs.
Proof.
  rewrite py_to_r_tuple.
  destruct (mapM py_to_r items) as [rlist| |]; simpl; try discriminate.
  destruct fields as [fieldsAttr|]; [|intros H; inversion H; subst; discriminate].
  destruct (PyTuple_Check fieldsAttr && _) eqn:Hcheck;
    [|intros H; inversion H; subst; discriminate].
  apply andb_prop in Hcheck. destruct Hcheck as [Htuple Hsize].
  destruct fieldsAttr; try discriminate Htuple.
  destruct (py_tuple_to_character _) as [ns| |] eqn:Hns; simpl; try discriminate.
  intros H Hnames. inversion H; subst. simpl in Hnames. inversion Hnames; subst.
  destruct (py_tuple_to_character_Ok _ _ _ Hns) as (strs & -> & ->).
  exists strs, fields. repeat split.
  apply Z.eqb_eq in Hsize. simpl in Hsize. rewrite length_map in Hsize. lia.
Qed.

(** C3.  The tuple branch attaches [_fields] whenever it is a tuple of
    the tuple's length, without looking at its items: on the 1-tuple
    [(1,)] whose [_fields] is [(7,)] the conversion does not return the
    unnamed list of length one, it passes the null pointer that
    [PyString_AsString] returns for [7] on as a C string. *)
Theorem C3_fields_not_strings :
  let fieldsAttr := PyTuple [PyInt 7] None in
  let x := PyTuple [PyInt 1] (Some fieldsAttr) in
  PyObject_HasAttrString x "_fields" = 1 /\
  PyTuple_Check fieldsAttr = true /\
  PyTuple_Size fieldsAttr = PyTuple_Size x /\
  PyString_AsString (PyInt 7) = None /\
  py_tuple_to_character fieldsAttr = Undefined /\
  py_to_r x = Undefined /\
  py_to_r x <> Ok (RList [wrap_long 1] no_attributes).
Proof.
  cbv zeta. repeat split; try reflexivity. discriminate.
Qed.

(** ** Scalars: host to guest and back *)

Lemma c_str_no_NUL (s : string) : no_NUL s -> c_str s = s.
Proof.
  unfold no_NUL. induction s as [|c s IH]; simpl; intros H; [reflexivity|].
  destruct (Ascii.eqb_spec c Ascii.zero) as [->|_].
  - exfalso; apply H; left; reflexivity.
  - f_equal. apply IH. intros Hin; apply H; right; exact Hin.
Qed.

Lemma roundtrip_logical (b : bool) :
  roundtrip (wrap_bool b) = Ok (wrap_bool b).
Proof. destruct b; reflexivity. Qed.

Lemma roundtrip_numeric (f : float) :
  roundtrip (RNumeric [f] no_attributes) = Ok (RNumeric [f] no_attributes).
Proof. reflexivity. Qed.

Lemma roundtrip_character (s : string) :
  no_NUL s ->
  roundtrip (RCharacter [mkChar s] no_attributes)
  = Ok (RCharacter [mkChar s] no_attributes).
Proof.
  intros H. unfold roundtrip; simpl. unfold PyString_FromString.
  rewrite (c_str_no_NUL s H). cbn. rewrite (c_str_no_NUL s H). reflexivity.
Qed.

(** The missing string comes back as the two letters [CHAR] shows. *)
Lemma roundtrip_character_NA :
  roundtrip (RCharacter [NA_STRING] no_attributes)
  = Ok (RCharacter [mkChar "NA"] no_attributes).
Proof. reflexivity. Qed.

(** A logical [NA] does not survive: any non-zero [int] becomes [True]. *)
Lemma roundtrip_logical_NA :
  roundtrip (RLogical [NA_LOGICAL] no_attributes) = Ok (RLogical [1] no_attributes).
Proof. reflexivity. Qed.

(** C1.  An integer vector of length one does not come back as itself:
    [r_to_py] makes the guest [int] of the same value, and the scalar
    branch of [py_to_r] hands the C [long] it reads to [wrap], which
    builds a numeric (double) vector.  The list branch, by contrast,
    fills an integer vector. *)
Theorem C1_integer_scalar_returns_numeric :
  (forall n : Z,
     r_to_py (RInteger [n] no_attributes) = Ok (PyInt n) /\
     r_scalar_type (PyInt n) = INTSXP /\
     roundtrip (RInteger [n] no_attributes)
       = Ok (RNumeric [double_of_long n] no_attributes)) /\
  roundtrip (RInteger [5] no_attributes) = Ok (RNumeric [5%float] no_attributes) /\
  roundtrip (RInteger [5] no_attributes) <> Ok (RInteger [5] no_attributes) /\
  py_to_r (PyList [PyInt 5; PyInt 6]) = Ok (RInteger [5; 6] no_attributes).
Proof.
  repeat split; try reflexivity. discriminate.
Qed.

(** ** The error bridge *)

(** C4.  [py_fetch_error] takes the pending (type, value, traceback) with
    [PyErr_Fetch].  When a value is present and the guest's [str()] of it
    is the string [s], the message is [s] read as a C string ([s] itself
    when it holds no NUL byte) and [stop] raises exactly it; when no
    value is present the message is ["<unknown error>"].  In both cases
    the indicator is empty afterwards. *)
Theorem C4_error_bridge (PyObject_Str : PyObject -> api PyObject)
    (tstate : PyErrState) :
  PyErr_Fetch tstate
    = ((curexc_type tstate, curexc_value tstate, curexc_traceback tstate), no_error) /\
  (forall value s,
     curexc_value tstate = Some value ->
     PyObject_Str value = Returned (PyString s) ->
     py_fetch_error PyObject_Str tstate = (Ok (c_str s), no_error) /\
     (no_NUL s -> py_fetch_error PyObject_Str tstate = (Ok s, no_error)) /\
     stop_py_error PyObject_Str tstate = @Stop unit (c_str s)) /\
  (curexc_value tstate = None ->
     py_fetch_error PyObject_Str tstate = (Ok "<unknown error>", no_error) /\
     stop_py_error PyObject_Str tstate = @Stop unit "<unknown error>").
Proof.
  split; [reflexivity|]. split.
  - intros value s Hv Hs.
    assert (E : py_fetch_error PyObject_Str tstate = (Ok (c_str s), no_error)).
    { unfold py_fetch_error, PyErr_Fetch. rewrite Hv, Hs. reflexivity. }
    repeat split.
    + exact E.
    + intros Hn. rewrite E, (c_str_no_NUL s Hn). reflexivity.
    + unfold stop_py_error. rewrite E. reflexivity.
  - intros Hv.
    assert (E : py_fetch_error PyObject_Str tstate = (Ok "<unknown error>", no_error)).
    { unfold py_fetch_error, PyErr_Fetch. rewrite Hv. reflexivity. }
    split; [exact E|]. unfold stop_py_error. rewrite E. reflexivity.
Qed.

Lemma C4_error_bridge_witness :
  py_fetch_error str_of_strings pending_ValueError
  = (Ok "invalid literal for int() with base 10: 'x'", no_error) /\
  py_fetch_error str_of_strings pending_without_value
  = (Ok "<unknown error>", no_error).
Proof.
  split.
  - apply (proj1 (proj1 (proj2 (C4_error_bridge str_of_strings pending_ValueError))
                    (PyString "invalid literal for int() with base 10: 'x'")
                    "invalid literal for int() with base 10: 'x'"
                    eq_refl eq_refl)).
  - apply (proj1 (proj2 (proj2 (C4_error_bridge str_of_strings pending_without_value))
                    eq_refl)).
Defined.

(** ** Arrays: normalisation of the element type *)

(** The array branch of [py_to_r], spelled out. *)
Lemma py_to_r_array (typenum : Z) (dims : list Z) (data : list npy_scalar) :
  py_to_r (PyArray typenum dims data) =
  (target <- target_typenum typenum ;;
   if target =? NPY_BOOL then
     Ok (RLogical (map npy_as_bool data) (array_attributes dims))
   else if target =? NPY_LONG then
     Ok (RInteger (map (fun e => int_of_long (npy_as_long e)) data)
                  (array_attributes dims))
   else
     Ok (RNumeric (map npy_as_double data) (array_attributes dims))).
Proof. reflexivity. Qed.

Lemma target_typenum_unsupported (typenum : Z) :
  ~ supported_typenum typenum ->
  target_typenum typenum
  = Stop ("Conversion from numpy array type " ++ format_d typenum
          ++ " is not supported")%string.
Proof.
  intros H. unfold target_typenum.
  repeat match goal with
         | |- context [?a =? ?b] =>
             destruct (Z.eqb_spec a b) as [E|_];
             [exfalso; apply H; unfold supported_typenum, casts_to_long,
                casts_to_double; tauto|]
         end.
  reflexivity.
Qed.

(** C5.  The element type of a guest array is brought to one of three:
    [NPY_BOOL] stays and gives a logical array; [NPY_BYTE], [NPY_UBYTE],
    [NPY_SHORT], [NPY_USHORT], [NPY_INT] and [NPY_LONG] are cast to
    [NPY_LONG] and give an integer array; [NPY_FLOAT] and [NPY_DOUBLE]
    are cast to [NPY_DOUBLE] and give a numeric array, each with the
    array's shape as [dim].  Every other type number raises a fault whose
    message spells the number in decimal. *)
Theorem C5_array_element_type (typenum : Z) (dims : list Z)
    (data : list npy_scalar) :
  (typenum = NPY_BOOL ->
     target_typenum typenum = Ok NPY_BOOL /\
     py_to_r (PyArray typenum dims data)
     = Ok (RLogical (map npy_as_bool data) (array_attributes dims))) /\
  (casts_to_long typenum ->
     target_typenum typenum = Ok NPY_LONG /\
     py_to_r (PyArray typenum dims data)
     = Ok (RInteger (map (fun e => int_of_long (npy_as_long e)) data)
                    (array_attributes dims))) /\
  (casts_to_double typenum ->
     target_typenum typenum = Ok NPY_DOUBLE /\
     py_to_r (PyArray typenum dims data)
     = Ok (RNumeric (map npy_as_double data) (array_attributes dims))) /\
  (~ supported_typenum typenum ->
     py_to_r (PyArray typenum dims data)
     = Stop ("Conversion from numpy array type " ++ format_d typenum
             ++ " is not supported")%string).
Proof.
  repeat split.
  - subst; reflexivity.
  - subst; reflexivity.
  - destruct H as [->|[->|[->|[->|[->| ->]]]]]; reflexivity.
  - destruct H as [->|[->|[->|[->|[->| ->]]]]]; reflexivity.
  - destruct H as [->| ->]; reflexivity.
  - destruct H as [->| ->]; reflexivity.
  - intros H. rewrite py_to_r_array, (target_typenum_unsupported typenum H).
    reflexivity.
Qed.

Lemma C5_array_element_type_witness :
  py_to_r (PyArray NPY_BOOL [2] [NpyBool 1; NpyBool 0])
    = Ok (RLogical [1; 0] (array_attributes [2])) /\
  py_to_r (PyArray NPY_SHORT [2; 1] [NpyInt 3; NpyInt (-4)])
    = Ok (RInteger [3; -4] (array_attributes [2; 1])) /\
  py_to_r (PyArray NPY_FLOAT [1] [NpyFloat 0.5%float])
    = Ok (RNumeric [0.5%float] (array_attributes [1])) /\
  py_to_r (PyArray NPY_CDOUBLE [1] [])
    = Stop "Conversion from numpy array type 15 is not supported" /\
  py_to_r (PyArray NPY_OBJECT [1] [])
    = Stop "Conversion from numpy array type 17 is not supported" /\
  py_to_r (PyArray NPY_STRING [1] [])
    = Stop "Conversion from numpy array type 18 is not supported" /\
  py_to_r (PyArray NPY_DATETIME [1] [])
    = Stop "Conversion from numpy array type 21 is not supported".
Proof.
  assert (U : forall t, (t =? NPY_BOOL) || (t =? NPY_BYTE) || (t =? NPY_UBYTE)
                        || (t =? NPY_SHORT) || (t =? NPY_USHORT) || (t =? NPY_INT)
                        || (t =? NPY_LONG) || (t =? NPY_FLOAT) || (t =? NPY_DOUBLE)
                        = false -> ~ supported_typenum t).
  { intros t Ht Hs. unfold supported_typenum, casts_to_long, casts_to_double in Hs.
    repeat (apply Bool.orb_false_elim in Ht; destruct Ht as [Ht ?]).
    repeat match goal with H : (_ =? _) = false |- _ => apply Z.eqb_neq in H end.
    tauto. }
  refine (conj _ (conj _ (conj _ (conj _ (conj _ (conj _ _)))))).
  - apply (proj1 (C5_array_element_type NPY_BOOL [2] [NpyBool 1; NpyBool 0])).
    reflexivity.
  - apply (proj1 (proj2 (C5_array_element_type NPY_SHORT [2; 1] [NpyInt 3; NpyInt (-4)]))).
    right; right; left; reflexivity.
  - apply (proj1 (proj2 (proj2
             (C5_array_element_type NPY_FLOAT [1] [NpyFloat 0.5%float])))).
    left; reflexivity.
  - apply (proj2 (proj2 (proj2 (C5_array_element_type NPY_CDOUBLE [1] [])))).
    apply U; reflexivity.
  - apply (proj2 (proj2 (proj2 (C5_array_element_type NPY_OBJECT [1] [])))).
    apply U; reflexivity.
  - apply (proj2 (proj2 (proj2 (C5_array_element_type NPY_STRING [1] [])))).
    apply U; reflexivity.
  - apply (proj2 (proj2 (proj2 (C5_array_element_type NPY_DATETIME [1] [])))).
    apply U; reflexivity.
Defined.

(** ** Bootstrap *)

(** The library is opened with [RTLD_NOW], not [RTLD_LAZY]: no [dlopen]
    that [py_initialize] makes asks for lazy binding. *)
Lemma C6_dlopen_is_not_lazy :
  APPLE linux_ok = false /\
  fst (py_initialize str_of_strings linux_ok "libpython2.7.so")
  = [Ev_dlopen "libpython2.7.so" 258; Ev_Py_Initialize;
     Ev_PySys_SetArgv ["python"]; Ev_import_array] /\
  ~ (exists flags,
       In (Ev_dlopen "libpython2.7.so" flags)
          (fst (py_initialize str_of_strings linux_ok "libpython2.7.so")) /\
       Z.land flags RTLD_LAZY <> 0).
Proof.
  split; [reflexivity|]. split; [reflexivity|].
  intros (flags & Hin & Hlazy). apply Hlazy.
  vm_compute in Hin.
  destruct Hin as [E|[E|[E|[E|[]]]]]; try discriminate E.
  inversion E; subst. reflexivity.
Qed.

(** C6.  Where [__APPLE__] is not defined, the first call
    [py_initialize] makes is [dlopen] of the given library with
    [RTLD_NOW | RTLD_GLOBAL]: immediate binding, globally visible
    symbols, no lazy binding.  When the library loads, [Py_Initialize]
    is the next call; when it does not, [dlerror] is read, its text is
    the message of the fault raised, and the interpreter is not
    initialised. *)
Theorem C6_bootstrap_dlopen (PyObject_Str : PyObject -> api PyObject)
    (sys : system) (lib : string) :
  APPLE sys = false ->
  let flags := Z.lor RTLD_NOW RTLD_GLOBAL in
  Z.land flags RTLD_NOW = RTLD_NOW /\
  Z.land flags RTLD_GLOBAL = RTLD_GLOBAL /\
  Z.land flags RTLD_LAZY = 0 /\
  (dlopen sys lib flags = true ->
     exists rest,
       fst (py_initialize PyObject_Str sys lib)
       = Ev_dlopen lib flags :: Ev_Py_Initialize :: rest) /\
  (dlopen sys lib flags = false ->
     py_initialize PyObject_Str sys lib
     = ([Ev_dlopen lib flags; Ev_dlerror], Stop (dlerror sys))).
Proof.
  intros Happle flags.
  split; [reflexivity|]. split; [reflexivity|]. split; [reflexivity|].
  split; intros Hopen; unfold py_initialize; rewrite Happle; fold flags;
    unfold io_call at 1; simpl io_bind; rewrite Hopen; simpl.
  - unfold py_import_numpy_array_api.
    destruct (import_array sys) as [u|err]; simpl.
    + eexists; reflexivity.
    + destruct (fst (py_fetch_error PyObject_Str err)); simpl; eexists; reflexivity.
  - reflexivity.
Qed.

Lemma C6_bootstrap_dlopen_witness :
  (exists rest,
     fst (py_initialize str_of_strings linux_ok "libpython2.7.so")
     = Ev_dlopen "libpython2.7.so" 258 :: Ev_Py_Initialize :: rest) /\
  py_initialize str_of_strings linux_no_lib "libpython2.7.so"
  = ([Ev_dlopen "libpython2.7.so" 258; Ev_dlerror],
     Stop "libpython2.7.so: cannot open shared object file: No such file or directory").
Proof.
  split.
  - apply (proj1 (proj2 (proj2 (proj2
             (C6_bootstrap_dlopen str_of_strings linux_ok "libpython2.7.so" eq_refl))))).
    reflexivity.
  - apply (proj2 (proj2 (proj2 (proj2
             (C6_bootstrap_dlopen str_of_strings linux_no_lib "libpython2.7.so" eq_refl))))).
    reflexivity.
Defined.

(** ** Running a file *)

(** C7.  [py_run_file] expands the path, then opens the expanded path
    for reading, and opens nothing else.  When that fails nothing is
    run, and the fault raised carries the path as it was given, between
    quotes: ["Unable to read script file '<file>' (does the file
    exist?)"]. *)
Theorem C7_run_file_unreadable (PyObject_Str : PyObject -> api PyObject)
    (sys : system) (file : string) :
  fopen sys (path_expand sys file) "r" = false ->
  py_run_file PyObject_Str sys file
  = ([Ev_path_expand file; Ev_fopen (path_expand sys file) "r"],
     Stop ("Unable to read script file '" ++ file
           ++ "' (does the file exist?)")%string) /\
  (forall path mode,
     In (Ev_fopen path mode) (fst (py_run_file PyObject_Str sys file)) ->
     path = path_expand sys file /\ mode = "r").
Proof.
  intros Hopen.
  assert (E : py_run_file PyObject_Str sys file
              = ([Ev_path_expand file; Ev_fopen (path_expand sys file) "r"],
                 Stop ("Unable to read script file '" ++ file
                       ++ "' (does the file exist?)")%string)).
  { unfold py_run_file, io_call. simpl io_bind. rewrite Hopen. reflexivity. }
  split; [exact E|].
  intros path mode Hin. rewrite E in Hin. simpl in Hin.
  destruct Hin as [H|[H|[]]]; [discriminate H|].
  inversion H; subst. split; reflexivity.
Qed.

Lemma C7_run_file_unreadable_witness :
  py_run_file str_of_strings no_files "~/no/such/file.py"
  = ([Ev_path_expand "~/no/such/file.py"; Ev_fopen "/home/user/no/such/file.py" "r"],
     Stop "Unable to read script file '~/no/such/file.py' (does the file exist?)").
Proof.
  apply (proj1 (C7_run_file_unreadable str_of_strings no_files "~/no/such/file.py"
                  eq_refl)).
Defined.

(** ** Attribute kinds *)

Lemma attribute_type_precedence (attr : PyObject) :
  (PyCallable_Check attr = true -> attribute_type attr = 6) /\
  (PyCallable_Check attr = false -> is_list_like attr = true ->
     attribute_type attr = 4) /\
  (PyCallable_Check attr = false -> is_list_like attr = false ->
     PyArray_Check attr = true -> attribute_type attr = 2) /\
  (PyCallable_Check attr = false -> is_list_like attr = false ->
     PyArray_Check attr = false -> is_scalar attr = true ->
     attribute_type attr = 1) /\
  (PyCallable_Check attr = false -> is_list_like attr = false ->
     PyArray_Check attr = false -> is_scalar attr = false ->
     attribute_type attr = 4).
Proof.
  unfold attribute_type, is_list_like, is_scalar.
  refine (conj _ (conj _ (conj _ (conj _ _)))).
  - intros ->. reflexivity.
  - intros -> ->. reflexivity.
  - intros -> -> ->. reflexivity.
  - intros -> -> -> ->. reflexivity.
  - intros -> -> -> ->. reflexivity.
Qed.

Lemma py_get_attribute_types_found
    (PyObject_Str : PyObject -> api PyObject)
    (AttributeError : PyObject -> string -> PyErrState)
    (x : PyObject) (attributes : list string) (attrs : list PyObject) :
  Forall2 (fun name attr => PyObject_GetAttrString x name = Some attr)
          attributes attrs ->
  py_get_attribute_types PyObject_Str AttributeError x attributes
  = Ok (RInteger (map attribute_type attrs) no_attributes).
Proof.
  intros H. unfold py_get_attribute_types.
  replace (mapM _ attributes) with (Ok (A := list Z) (map attribute_type attrs));
    [reflexivity|].
  symmetry. apply mapM_Ok_iff.
  induction H as [|name attr names attrs Hget _ IH]; simpl; constructor.
  - unfold py_get_attr. rewrite Hget. simpl. unfold py_xptr.
    destruct (ob_type attr). reflexivity.
  - exact IH.
Qed.

(** C9.  For attributes that exist, [py_get_attribute_types] returns one
    code per name, in order: 6 when the attribute is callable; else 4
    when it is a list, tuple or dict; else 2 when it is an array; else 1
    when it is a boolean, int, long, float or string; and 4 again for
    an object that is none of these. *)
Theorem C9_attribute_kinds
    (PyObject_Str : PyObject -> api PyObject)
    (AttributeError : PyObject -> string -> PyErrState)
    (x : PyObject) (attributes : list string) (attrs : list PyObject) :
  Forall2 (fun name attr => PyObject_GetAttrString x name = Some attr)
          attributes attrs ->
  exists types,
    py_get_attribute_types PyObject_Str AttributeError x attributes
    = Ok (RInteger types no_attributes) /\
    Forall2 (fun attr t =>
               (PyCallable_Check attr = true -> t = 6) /\
               (PyCallable_Check attr = false -> is_list_like attr = true -> t = 4) /\
               (PyCallable_Check attr = false -> is_list_like attr = false ->
                  PyArray_Check attr = true -> t = 2) /\
               (PyCallable_Check attr = false -> is_list_like attr = false ->
                  PyArray_Check attr = false -> is_scalar attr = true -> t = 1) /\
               (PyCallable_Check attr = false -> is_list_like attr = false ->
                  PyArray_Check attr = false -> is_scalar attr = false -> t = 4))
            attrs types.
Proof.
  intros H. exists (map attribute_type attrs). split.
  - now apply py_get_attribute_types_found.
  - clear H. induction attrs as [|attr attrs IH]; simpl; constructor.
    + apply attribute_type_precedence.
    + exact IH.
Qed.

Lemma C9_attribute_kinds_witness :
  exists types,
    py_get_attribute_types str_of_strings no_such_attribute example_module
      ["sqrt"; "shape"; "values"; "version"; "flags"]
    = Ok (RInteger types no_attributes) /\
    Forall2 (fun attr t =>
               (PyCallable_Check attr = true -> t = 6) /\
               (PyCallable_Check attr = false -> is_list_like attr = true -> t = 4) /\
               (PyCallable_Check attr = false -> is_list_like attr = false ->
                  PyArray_Check attr = true -> t = 2) /\
               (PyCallable_Check attr = false -> is_list_like attr = false ->
                  PyArray_Check attr = false -> is_scalar attr = true -> t = 1) /\
               (PyCallable_Check attr = false -> is_list_like attr = false ->
                  PyArray_Check attr = false -> is_scalar attr = false -> t = 4))
            [PyInstance "__builtin__" "builtin_function_or_method" true [];
             PyTuple [PyInt 2; PyInt 3] None;
             PyArray NPY_DOUBLE [1] [NpyFloat 1%float];
             PyString "1.11";
             PyInstance "numpy" "flagsobj" false []]
            types.
Proof.
  apply (C9_attribute_kinds str_of_strings no_such_attribute example_module).
  repeat constructor.
Defined.

Lemma example_module_kinds :
  py_get_attribute_types str_of_strings no_such_attribute example_module
    ["sqrt"; "shape"; "values"; "version"; "flags"]
  = Ok (RInteger [6; 4; 2; 1; 4] no_attributes).
Proof. reflexivity. Qed.

(** ** Host to guest: the rules after the guards *)

Lemma PyDict_SetItemString_string_keys dict key item :
  string_keys dict -> string_keys (PyDict_SetItemString dict key item).
Proof.
  unfold string_keys. induction dict as [|[k v] dict IH]; simpl; intros H.
  - repeat constructor.
  - inversion H as [|? ? Hk Hrest]; subst.
    destruct (is_key k key); constructor; auto.
Qed.

Lemma fold_SetItemString_string_keys (l : list (CHARSXP * PyObject)) dict :
  string_keys dict ->
  string_keys (fold_left (fun d p => PyDict_SetItemString d (c_str (CHAR (fst p))) (snd p))
                         l dict).
Proof.
  revert dict; induction l as [|p l IH]; simpl; intros dict H; [exact H|].
  apply IH, PyDict_SetItemString_string_keys, H.
Qed.

Lemma dict_of_string_keys names items : string_keys (dict_of names items).
Proof. apply fold_SetItemString_string_keys. constructor. Qed.

Lemma set_items_Ok (f : SEXP -> result PyObject) (es : list SEXP)
    (items : list PyObject) :
  Forall2 (fun e item => f e = Ok item) es items ->
  forall (ns : list CHARSXP) (dict : list (PyObject * PyObject)),
    (List.length es <= List.length ns)%nat ->
    set_items f es ns dict
    = Ok (fold_left (fun d p => PyDict_SetItemString d (c_str (CHAR (fst p))) (snd p))
                    (combine ns items) dict).
Proof.
  induction 1 as [|e item es items He _ IH]; intros ns dict Hlen.
  - destruct ns; reflexivity.
  - destruct ns as [|n ns]; [simpl in Hlen; lia|]. simpl. rewrite He. simpl.
    apply IH. simpl in Hlen. lia.
Qed.

(** [r_to_py] once the null, wrapper and [dim] tests have failed. *)
Lemma r_to_py_after_guards (x : SEXP) :
  isNULL x = false -> inherits x "py_object" = false -> has_dim x = false ->
  r_to_py x =
  match x with
  | RInteger v _ =>
      match v with
      | [value] => Ok (PyInt_FromLong value)
      | _ => Ok (PyList (map PyInt_FromLong v))
      end
  | RNumeric v _ =>
      match v with
      | [value] => Ok (PyFloat_FromDouble value)
      | _ => Ok (PyList (map PyFloat_FromDouble v))
      end
  | RLogical v _ =>
      match v with
      | [value] => Ok (PyBool_FromLong value)
      | _ => Ok (PyList (map PyBool_FromLong v))
      end
  | RCharacter v _ =>
      match v with
      | [value] => Ok (PyString_FromString (CHAR value))
      | _ => Ok (PyList (map (fun e => PyString_FromString (CHAR e)) v))
      end
  | RList v a =>
      match attr_names a with
      | Some names => dict <- set_items r_to_py v names [] ;; Ok (PyDict dict)
      | None => tuple <- mapM r_to_py v ;; Ok (PyTuple tuple None)
      end
  | _ => Stop "Unable to convert R object to python type"
  end.
Proof.
  intros Hnull Hcls Hdim.
  destruct x; try discriminate Hnull.
  all: match goal with
       | |- r_to_py ?y = _ =>
           change (inherits y "py_object") with (existsb (String.eqb "py_object") (attr_class a)) in Hcls;
           change (has_dim y) with (match attr_dim a with Some _ => true | None => false end) in Hdim
       end.
  all: destruct a as [d n c]; cbn [attr_dim attr_class] in Hcls, Hdim;
       (destruct d; [discriminate Hdim|]).
  all: match goal with
       | |- r_to_py ?y = ?rhs =>
           change (r_to_py y)
             with (if existsb (String.eqb "py_object") c
                   then as_PyObjectXPtr y else rhs)
       end; rewrite Hcls; reflexivity.
Qed.

Lemma longer_than_one {A : Type} (v : list A) :
  (1 < List.length v)%nat -> exists a b w, v = a :: b :: w.
Proof.
  destruct v as [|a [|b w]]; simpl; intros H; try lia. eauto.
Qed.

(** The guards of [r_to_py], in their order. *)
Lemma r_to_py_null (x : SEXP) : isNULL x = true -> r_to_py x = Ok Py_None.
Proof. destruct x; try discriminate. reflexivity. Qed.

Lemma r_to_py_wrapped (x : SEXP) :
  isNULL x = false -> inherits x "py_object" = true ->
  r_to_py x = as_PyObjectXPtr x.
Proof.
  intros Hnull Hcls. destruct x; try discriminate Hnull.
  all: cbn [r_to_py isNULL]; rewrite Hcls; reflexivity.
Qed.

Lemma r_to_py_dimensioned (x : SEXP) (dimAttrib : list Z) :
  isNULL x = false -> inherits x "py_object" = false ->
  attr_dim (ATTRIB x) = Some dimAttrib ->
  r_to_py x =
  match x with
  | RInteger v _ => Ok (borrowed_array NPY_INT dimAttrib (map NpyInt v))
  | RNumeric v _ => Ok (borrowed_array NPY_DOUBLE dimAttrib (map NpyFloat v))
  | RLogical v _ =>
      Ok (borrowed_array NPY_BOOL dimAttrib (map NpyBool (flat_map int_bytes v)))
  | _ => Stop matrix_fault
  end.
Proof.
  intros Hnull Hcls Hdim. destruct x; try discriminate Hnull.
  all: cbn [ATTRIB] in Hdim; destruct a as [d n c]; cbn [attr_dim] in Hdim; subst d.
  all: match goal with
       | |- r_to_py ?y = ?rhs =>
           change (r_to_py y) with (if inherits y "py_object" then as_PyObjectXPtr y else rhs)
       end; rewrite Hcls; reflexivity.
Qed.

(** C8.  [r_to_py] first turns null into [None], then passes on the
    pointer of a value that inherits from [py_object], then turns a
    value with [dim] into an array (or raises for a type that has no
    array form).  For any other value it applies, by the value's type: a
    logical, integer, numeric or character vector of length one becomes
    the guest boolean, int, float or string of its element; one of
    length greater than one becomes the guest list of those scalars, in
    order; a generic list with names becomes a dict whose keys are
    strings, filled in order with the converted elements under their
    names; a generic list without names becomes the tuple of the
    converted elements; any other type raises a fault. *)
Theorem C8_r_to_py_rules (x : SEXP) :
  (isNULL x = true -> r_to_py x = Ok Py_None) /\
  (isNULL x = false -> inherits x "py_object" = true ->
     r_to_py x = as_PyObjectXPtr x) /\
  (isNULL x = false -> inherits x "py_object" = false -> has_dim x = true ->
     (exists typenum dims data, r_to_py x = Ok (PyArray typenum dims data)) \/
     r_to_py x = Stop matrix_fault) /\
  (isNULL x = false -> inherits x "py_object" = false -> has_dim x = false ->
   (forall value a, x = RLogical [value] a ->
      r_to_py x = Ok (PyBool (negb (value =? 0)))) /\
   (forall value a, x = RInteger [value] a -> r_to_py x = Ok (PyInt value)) /\
   (forall value a, x = RNumeric [value] a -> r_to_py x = Ok (PyFloat value)) /\
   (forall value a, x = RCharacter [value] a ->
      r_to_py x = Ok (PyString (c_str (CHAR value)))) /\
   (forall v a, x = RLogical v a -> (1 < List.length v)%nat ->
      r_to_py x = Ok (PyList (map (fun i => PyBool (negb (i =? 0))) v))) /\
   (forall v a, x = RInteger v a -> (1 < List.length v)%nat ->
      r_to_py x = Ok (PyList (map PyInt v))) /\
   (forall v a, x = RNumeric v a -> (1 < List.length v)%nat ->
      r_to_py x = Ok (PyList (map PyFloat v))) /\
   (forall v a, x = RCharacter v a -> (1 < List.length v)%nat ->
      r_to_py x = Ok (PyList (map (fun e => PyString (c_str (CHAR e))) v))) /\
   (forall v a names items,
      x = RList v a -> attr_names a = Some names ->
      (List.length v <= List.length names)%nat ->
      Forall2 (fun e item => r_to_py e = Ok item) v items ->
      r_to_py x = Ok (PyDict (dict_of names items)) /\
      string_keys (dict_of names items)) /\
   (forall v a items,
      x = RList v a -> attr_names a = None ->
      Forall2 (fun e item => r_to_py e = Ok item) v items ->
      r_to_py x = Ok (PyTuple items None)) /\
   (is_typed_vector x = false -> is_generic_list x = false ->
      r_to_py x = Stop "Unable to convert R object to python type")).
Proof.
  refine (conj (r_to_py_null x) (conj (r_to_py_wrapped x) (conj _ _))).
  { intros Hnull Hcls Hdim. unfold has_dim in Hdim.
    destruct (attr_dim (ATTRIB x)) as [dimAttrib|] eqn:E; [|discriminate Hdim].
    rewrite (r_to_py_dimensioned x dimAttrib Hnull Hcls E).
    destruct x; try (right; reflexivity); left; unfold borrowed_array; eauto. }
  intros Hnull Hcls Hdim.
  pose proof (r_to_py_after_guards x Hnull Hcls Hdim) as E.
  refine (conj _ (conj _ (conj _ (conj _ (conj _ (conj _ (conj _ (conj _
            (conj _ (conj _ _)))))))))).
  - intros value a ->. exact E.
  - intros value a ->. exact E.
  - intros value a ->. exact E.
  - intros value a ->. exact E.
  - intros v a -> Hlen. destruct (longer_than_one v Hlen) as (i & j & w & ->). exact E.
  - intros v a -> Hlen. destruct (longer_than_one v Hlen) as (i & j & w & ->). exact E.
  - intros v a -> Hlen. destruct (longer_than_one v Hlen) as (i & j & w & ->). exact E.
  - intros v a -> Hlen. destruct (longer_than_one v Hlen) as (i & j & w & ->). exact E.
  - intros v a names items -> Hnames Hlen Hitems. split.
    + rewrite E, Hnames, (set_items_Ok r_to_py v items Hitems names [] Hlen).
      reflexivity.
    + apply dict_of_string_keys.
  - intros v a items -> Hnames Hitems.
    apply mapM_Ok_iff in Hitems. rewrite E, Hnames, Hitems. reflexivity.
  - intros Hvec Hlist. rewrite E.
    destruct x; try discriminate Hvec; try discriminate Hlist; reflexivity.
Qed.

Lemma C8_r_to_py_rules_witness :
  r_to_py (RLogical [1] no_attributes) = Ok (PyBool true) /\
  r_to_py (RNumeric [1.5%float; 2%float] no_attributes)
  = Ok (PyList [PyFloat 1.5%float; PyFloat 2%float]) /\
  r_to_py example_named_list
  = Ok (PyDict [(PyString "a", PyInt 1);
                (PyString "b", PyList [PyString "x"; PyString "y"])]) /\
  r_to_py (RList [RInteger [1] no_attributes; R_NilValue] no_attributes)
  = Ok (PyTuple [PyInt 1; Py_None] None) /\
  r_to_py (ROther CPLXSXP no_attributes)
  = Stop "Unable to convert R object to python type" /\
  ((exists typenum dims data,
      r_to_py (RInteger [7] (mkAttributes (Some [1; 1]) None []))
      = Ok (PyArray typenum dims data)) \/
   r_to_py (RInteger [7] (mkAttributes (Some [1; 1]) None [])) = Stop matrix_fault).
Proof.
  refine (conj _ (conj _ (conj _ (conj _ (conj _ _))))).
  - apply (proj1 (proj2 (proj2 (proj2 (C8_r_to_py_rules (RLogical [1] no_attributes))))
                    eq_refl eq_refl eq_refl)
             1 no_attributes eq_refl).
  - apply (proj1 (proj2 (proj2 (proj2 (proj2 (proj2 (proj2
             (proj2 (proj2 (proj2
                (C8_r_to_py_rules (RNumeric [1.5%float; 2%float] no_attributes))))
                eq_refl eq_refl eq_refl)))))))
             [1.5%float; 2%float] no_attributes eq_refl).
    simpl; lia.
  - apply (proj1 (proj2 (proj2 (proj2 (proj2 (proj2 (proj2 (proj2 (proj2
             (proj2 (proj2 (proj2 (C8_r_to_py_rules example_named_list)))
                eq_refl eq_refl eq_refl)))))))))
             [RInteger [1] no_attributes;
              RCharacter [mkChar "x"; mkChar "y"] no_attributes]
             (mkAttributes None (Some [mkChar "a"; mkChar "b"]) [])
             [mkChar "a"; mkChar "b"]
             [PyInt 1; PyList [PyString "x"; PyString "y"]]
             eq_refl eq_refl).
    + simpl; lia.
    + constructor; [reflexivity|]. constructor; [reflexivity|]. constructor.
  - apply (proj1 (proj2 (proj2 (proj2 (proj2 (proj2 (proj2 (proj2 (proj2 (proj2
             (proj2 (proj2 (proj2
                (C8_r_to_py_rules
                   (RList [RInteger [1] no_attributes; R_NilValue] no_attributes))))
                eq_refl eq_refl eq_refl))))))))))
             [RInteger [1] no_attributes; R_NilValue] no_attributes
             [PyInt 1; Py_None] eq_refl eq_refl).
    constructor; [reflexivity|]. constructor; [reflexivity|]. constructor.
  - apply (proj2 (proj2 (proj2 (proj2 (proj2 (proj2 (proj2 (proj2 (proj2 (proj2
             (proj2 (proj2 (proj2 (C8_r_to_py_rules (ROther CPLXSXP no_attributes))))
                eq_refl eq_refl eq_refl)))))))))));
      reflexivity.
  - apply (proj1 (proj2 (proj2
             (C8_r_to_py_rules (RInteger [7] (mkAttributes (Some [1; 1]) None []))))));
      reflexivity.
Defined.

(** ** Host to guest: vectors of length zero *)

(** An empty integer vector whose class is [py_object] has no [dim] and
    yet is not converted to an empty list: the wrapper test comes before
    the tests on the type, and the vector is not an external pointer. *)
Lemma C10_classed_empty_vector :
  let x := RInteger [] (mkAttributes None None ["py_object"]) in
  is_typed_vector x = true /\ LENGTH x = 0 /\ has_dim x = false /\
  r_to_py x = Stop "expecting an external pointer" /\
  r_to_py x <> Ok (PyList []).
Proof.
  cbv zeta. refine (conj _ (conj _ (conj _ (conj _ _)))); try reflexivity.
  discriminate.
Qed.

(** C10.  A logical, integer, numeric or character vector of
    length zero that has no [dim] and does not inherit from [py_object]
    is converted to the empty guest list. *)
Theorem C10_empty_vector_is_empty_list (x : SEXP) :
  is_typed_vector x = true -> LENGTH x = 0 -> has_dim x = false ->
  inherits x "py_object" = false ->
  r_to_py x = Ok (PyList []).
Proof.
  intros Hvec Hlen Hdim Hcls.
  assert (Hnull : isNULL x = false) by (destruct x; try discriminate Hvec; reflexivity).
  rewrite (r_to_py_after_guards x Hnull Hcls Hdim).
  destruct x as [|v a|v a|v a|v a| | |]; try discriminate Hvec;
    destruct v; try reflexivity; simpl in Hlen; lia.
Qed.

Lemma C10_empty_vector_is_empty_list_witness :
  r_to_py (RCharacter [] no_attributes) = Ok (PyList []).
Proof.
  apply (C10_empty_vector_is_empty_list (RCharacter [] no_attributes)
           eq_refl eq_refl eq_refl eq_refl).
Defined.

(** ** Wrappers *)

Lemma py_xptr_inherits (o : PyObject) : inherits (py_xptr o) "py_object" = true.
Proof.
  unfold py_xptr, inherits. destruct (ob_type o) as [m n].
  cbn [ATTRIB attr_class existsb]. apply Bool.orb_true_iff. right. reflexivity.
Qed.

Lemma stop_py_error_not_Ok {A : Type} (PyObject_Str : PyObject -> api PyObject)
    (err : PyErrState) (a : A) :
  stop_py_error PyObject_Str err <> Ok a.
Proof.
  unfold stop_py_error. destruct (fst (py_fetch_error PyObject_Str err)); discriminate.
Qed.

Lemma wrapper_as_pointer (o : PyObject) : as_PyObjectXPtr (py_xptr o) = Ok o.
Proof. unfold py_xptr. destruct (ob_type o). reflexivity. Qed.

Lemma wrapper_passes_back_aux (o : PyObject) : r_to_py (py_xptr o) = Ok o.
Proof.
  rewrite r_to_py_wrapped.
  - unfold py_xptr. destruct (ob_type o). reflexivity.
  - unfold py_xptr. destruct (ob_type o). reflexivity.
  - apply py_xptr_inherits.
Qed.

(** A wrapper made by [py_xptr] is recognised by [r_to_py] and gives
    back the very object it wraps; so an object that [py_to_r] can only
    wrap survives the way to the host and back unchanged. *)
Theorem wrapper_passes_back :
  (forall o : PyObject,
     inherits (py_xptr o) "py_object" = true /\ r_to_py (py_xptr o) = Ok o) /\
  (forall module name callable attrs,
     guest_roundtrip (PyInstance module name callable attrs)
     = Ok (PyInstance module name callable attrs)).
Proof.
  pose proof wrapper_passes_back_aux as H.
  split.
  - intros o. split; [apply py_xptr_inherits | apply H].
  - intros module name callable attrs. unfold guest_roundtrip.
    change (py_to_r (PyInstance module name callable attrs))
      with (Ok (py_xptr (PyInstance module name callable attrs))).
    apply H.
Qed.

(** What [py_get_attr] and [py_import] return, when they return, is a
    wrapper that [r_to_py] turns back into the attribute found, or the
    module imported. *)
Theorem attribute_and_module_handles
    (PyObject_Str : PyObject -> api PyObject)
    (AttributeError : PyObject -> string -> PyErrState)
    (PyImport_ImportModule : string -> api PyObject) :
  (forall x name w,
     py_get_attr PyObject_Str AttributeError x name = Ok w ->
     exists attr, PyObject_GetAttrString x name = Some attr /\ r_to_py w = Ok attr) /\
  (forall module w,
     py_import PyObject_Str PyImport_ImportModule module = Ok w ->
     exists pModule,
       PyImport_ImportModule (c_str module) = Returned pModule /\
       r_to_py w = Ok pModule).
Proof.
  split.
  - intros x name w. unfold py_get_attr.
    destruct (PyObject_GetAttrString x name) as [attr|].
    + intros H; inversion H; subst. exists attr. split; [reflexivity|].
      apply wrapper_passes_back_aux.
    + intros H. exfalso. exact (stop_py_error_not_Ok _ _ _ H).
  - intros module w. unfold py_import.
    destruct (PyImport_ImportModule (c_str module)) as [pModule|err].
    + intros H; inversion H; subst. exists pModule. split; [reflexivity|].
      apply wrapper_passes_back_aux.
    + intros H. exfalso. exact (stop_py_error_not_Ok _ _ _ H).
Qed.

Lemma attribute_and_module_handles_witness :
  exists attr,
    PyObject_GetAttrString example_module "version" = Some attr /\
    r_to_py (py_xptr (PyString "1.11")) = Ok attr.
Proof.
  apply (proj1 (attribute_and_module_handles str_of_strings no_such_attribute
                  (fun _ => Returned example_module))
           example_module "version" (py_xptr (PyString "1.11")) eq_refl).
Defined.

(** ** The kind of a list *)

(** [scalar_list_type] answers a scalar kind exactly for the non-empty
    lists whose items all have that kind, and [NILSXP] for every other
    list. *)
Theorem scalar_list_type_exact (items : list PyObject) (k : Z) :
  k <> NILSXP ->
  (scalar_list_type items = k <->
   items <> [] /\ Forall (fun o => r_scalar_type o = k) items) /\
  (scalar_list_type items = NILSXP \/ is_scalar_kind (scalar_list_type items)).
Proof.
  intros Hk. split.
  - split.
    + destruct items as [|first rest]; [intros H; symmetry in H; contradiction|].
      unfold scalar_list_type.
      destruct (Z.eqb_spec (r_scalar_type first) NILSXP) as [E|E];
        [intros H; symmetry in H; contradiction|].
      destruct (forallb _ rest) eqn:Hall; [|intros H; symmetry in H; contradiction].
      intros <-. split; [discriminate|]. constructor; [reflexivity|].
      apply Forall_forall. intros o Ho. rewrite forallb_forall in Hall.
      apply Z.eqb_eq, Hall, Ho.
    + intros [Hne Hall]. now apply scalar_list_type_homogeneous.
  - destruct items as [|first rest]; [left; reflexivity|].
    unfold scalar_list_type.
    destruct (Z.eqb_spec (r_scalar_type first) NILSXP) as [E|E]; [left; reflexivity|].
    destruct (forallb _ rest); [|left; reflexivity].
    destruct (r_scalar_type_cases first) as [H|H]; [contradiction|right; exact H].
Qed.

Lemma scalar_list_type_exact_witness :
  scalar_list_type [PyFloat 1%float; PyFloat 2%float] = REALSXP <->
  [PyFloat 1%float; PyFloat 2%float] <> [] /\
  Forall (fun o => r_scalar_type o = REALSXP) [PyFloat 1%float; PyFloat 2%float].
Proof.
  apply (proj1 (scalar_list_type_exact [PyFloat 1%float; PyFloat 2%float] REALSXP
                  ltac:(discriminate))).
Defined.

(** ** Guest to host and back *)

Lemma c_str_idempotent (s : string) : c_str (c_str s) = c_str s.
Proof.
  induction s as [|c s IH]; simpl; [reflexivity|].
  destruct (Ascii.eqb c Ascii.zero) eqn:E; simpl; [reflexivity|].
  rewrite E, IH. reflexivity.
Qed.

Lemma c_str_has_no_NUL (s : string) : no_NUL (c_str s).
Proof.
  unfold no_NUL. induction s as [|c s IH]; simpl; [tauto|].
  destruct (Ascii.eqb_spec c Ascii.zero) as [E|E]; simpl; [tauto|].
  intros [H|H]; [congruence|tauto].
Qed.

Lemma int_of_long_in_range (z : Z) : in_int_range z -> int_of_long z = z.
Proof.
  unfold in_int_range, INT_MIN, INT_MAX, int_of_long. intros H.
  rewrite Z.mod_small; lia.
Qed.

Lemma int_of_long_range (z : Z) : in_int_range (int_of_long z).
Proof.
  unfold in_int_range, INT_MIN, INT_MAX, int_of_long.
  pose proof (Z.mod_pos_bound (z + 2 ^ 31) (2 ^ 32) ltac:(lia)). lia.
Qed.

(** Guest scalars through the host and back: [None], booleans and floats
    return unchanged; a string returns cut at its first NUL byte; an
    [int] or [long] returns as the [float] nearest to the C [long] read
    from it. *)
Theorem guest_scalar_roundtrip :
  guest_roundtrip Py_None = Ok Py_None /\
  (forall b, guest_roundtrip (PyBool b) = Ok (PyBool b)) /\
  (forall f, guest_roundtrip (PyFloat f) = Ok (PyFloat f)) /\
  (forall s, guest_roundtrip (PyString s) = Ok (PyString (c_str s))) /\
  (forall n, guest_roundtrip (PyInt n) = Ok (PyFloat (double_of_long n))) /\
  (forall n, guest_roundtrip (PyLong n)
             = Ok (PyFloat (double_of_long (PyInt_AsLong (PyLong n))))).
Proof.
  refine (conj _ (conj _ (conj _ (conj _ (conj _ _))))); try reflexivity.
  - intros []; reflexivity.
  - intros s. unfold guest_roundtrip. cbn. unfold PyString_FromString. cbn.
    rewrite c_str_idempotent. reflexivity.
Qed.

Lemma two_or_more {A : Type} (v : list A) :
  (2 <= List.length v)%nat -> exists a b w, v = a :: b :: w.
Proof.
  destruct v as [|a [|b w]]; simpl; intros H; try lia. eauto.
Qed.

Lemma r_to_py_plain_vector_long (x : SEXP) :
  is_typed_vector x = true -> (2 <= Z.to_nat (LENGTH x))%nat ->
  ATTRIB x = no_attributes ->
  r_to_py x =
  match x with
  | RInteger v _ => Ok (PyList (map PyInt_FromLong v))
  | RNumeric v _ => Ok (PyList (map PyFloat_FromDouble v))
  | RLogical v _ => Ok (PyList (map PyBool_FromLong v))
  | RCharacter v _ => Ok (PyList (map (fun e => PyString_FromString (CHAR e)) v))
  | _ => r_to_py x
  end.
Proof.
  intros Hvec Hlen Hattr.
  destruct x as [|v a|v a|v a|v a| | |]; try discriminate Hvec;
    cbn [ATTRIB] in Hattr; subst a; cbn [LENGTH] in Hlen;
    rewrite Nat2Z.id in Hlen;
    destruct (two_or_more v Hlen) as (i & j & w & ->); reflexivity.
Qed.

(** A guest list of one scalar does not come back as a list: the host
    vector of length one it becomes is unboxed on the way back, to a
    scalar of the item's kind. *)
Theorem singleton_list_comes_back_scalar (item : PyObject) :
  r_scalar_type item <> NILSXP ->
  exists g,
    guest_roundtrip (PyList [item]) = Ok g /\
    PyList_Check g = false /\
    r_scalar_type g = r_scalar_type item.
Proof.
  intros H. destruct item; try (exfalso; apply H; reflexivity);
    eexists; (split; [reflexivity|]); split; reflexivity.
Qed.

Lemma singleton_list_comes_back_scalar_witness :
  exists g,
    guest_roundtrip (PyList [PyFloat 2.5%float]) = Ok g /\
    PyList_Check g = false /\
    r_scalar_type g = r_scalar_type (PyFloat 2.5%float).
Proof.
  apply (singleton_list_comes_back_scalar (PyFloat 2.5%float)). discriminate.
Defined.

Lemma map_id_on {A : Type} (f : A -> A) (l : list A) :
  Forall (fun a => f a = a) l -> map f l = l.
Proof.
  induction 1 as [|a l Ha _ IH]; simpl; [reflexivity|]. now rewrite Ha, IH.
Qed.

Lemma scalar_list_type_map (k : Z) {A : Type} (mk : A -> PyObject) (l : list A) :
  k <> NILSXP -> l <> [] -> (forall a, r_scalar_type (mk a) = k) ->
  scalar_list_type (map mk l) = k.
Proof.
  intros Hk Hne Hmk. apply scalar_list_type_homogeneous; [exact Hk| |].
  - destruct l; [congruence|discriminate].
  - apply Forall_forall. intros o Ho. apply in_map_iff in Ho.
    destruct Ho as (a & <- & _). apply Hmk.
Qed.

(** Guest lists of two or more items of one kind come back unchanged:
    lists of [int]s that fit a C [int], of floats, of booleans, and of
    strings without NUL bytes. *)
Theorem homogeneous_list_roundtrip :
  (forall values : list Z,
     (2 <= List.length values)%nat -> Forall in_int_range values ->
     guest_roundtrip (PyList (map PyInt values)) = Ok (PyList (map PyInt values))) /\
  (forall values : list float,
     (2 <= List.length values)%nat ->
     guest_roundtrip (PyList (map PyFloat values)) = Ok (PyList (map PyFloat values))) /\
  (forall values : list bool,
     (2 <= List.length values)%nat ->
     guest_roundtrip (PyList (map PyBool values)) = Ok (PyList (map PyBool values))) /\
  (forall values : list string,
     (2 <= List.length values)%nat -> Forall no_NUL values ->
     guest_roundtrip (PyList (map PyString values))
     = Ok (PyList (map PyString values))).
Proof.
  refine (conj _ (conj _ (conj _ _))).
  - intros values Hlen Hrange. unfold guest_roundtrip.
    rewrite py_to_r_list. cbv zeta.
    rewrite (scalar_list_type_map INTSXP PyInt values); try discriminate;
      [|destruct values; [simpl in Hlen; lia|discriminate]|reflexivity].
    cbn [Z.eqb INTSXP REALSXP Pos.eqb bind].
    replace (map (fun item => int_of_long (PyInt_AsLong item)) (map PyInt values))
      with values.
    + rewrite r_to_py_plain_vector_long; try reflexivity.
      cbn [LENGTH]. rewrite Nat2Z.id. exact Hlen.
    + rewrite map_map. symmetry. apply map_id_on.
      eapply Forall_impl; [|exact Hrange]. apply int_of_long_in_range.
  - intros values Hlen. unfold guest_roundtrip.
    rewrite py_to_r_list. cbv zeta.
    rewrite (scalar_list_type_map REALSXP PyFloat values); try discriminate;
      [|destruct values; [simpl in Hlen; lia|discriminate]|reflexivity].
    cbn [Z.eqb REALSXP Pos.eqb bind].
    rewrite map_map. cbn [PyFloat_AsDouble]. rewrite map_id.
    rewrite r_to_py_plain_vector_long; try reflexivity.
    cbn [LENGTH]. rewrite Nat2Z.id. exact Hlen.
  - intros values Hlen. unfold guest_roundtrip.
    rewrite py_to_r_list. cbv zeta.
    rewrite (scalar_list_type_map LGLSXP PyBool values); try discriminate;
      [|destruct values; [simpl in Hlen; lia|discriminate]|reflexivity].
    cbn [Z.eqb LGLSXP INTSXP REALSXP Pos.eqb bind].
    rewrite map_map.
    rewrite r_to_py_plain_vector_long; try reflexivity;
      [|cbn [LENGTH]; rewrite Nat2Z.id, length_map; exact Hlen].
    rewrite map_map. do 2 f_equal. apply map_ext. intros []; reflexivity.
  - intros values Hlen Hnul. unfold guest_roundtrip.
    rewrite py_to_r_list. cbv zeta.
    rewrite (scalar_list_type_map STRSXP PyString values); try discriminate;
      [|destruct values; [simpl in Hlen; lia|discriminate]|reflexivity].
    cbn [Z.eqb STRSXP LGLSXP INTSXP REALSXP Pos.eqb].
    replace (mapM _ (map PyString values)) with (Ok (map mkChar values)).
    + cbn [bind]. rewrite r_to_py_plain_vector_long; try reflexivity;
        [|cbn [LENGTH]; rewrite Nat2Z.id, length_map; exact Hlen].
      rewrite map_map. do 2 f_equal. unfold PyString_FromString. cbn [CHAR].
      apply map_ext_Forall. eapply Forall_impl; [|exact Hnul].
      intros s Hs. now rewrite (c_str_no_NUL s Hs).
    + symmetry. apply mapM_Ok_iff. clear Hlen.
      induction Hnul as [|s values Hs _ IH]; simpl; constructor; [|exact IH].
      cbn. now rewrite (c_str_no_NUL s Hs).
Qed.

Lemma homogeneous_list_roundtrip_witness :
  guest_roundtrip (PyList (map PyInt [2; 3; 4])) = Ok (PyList (map PyInt [2; 3; 4])) /\
  guest_roundtrip (PyList (map PyString ["a"; "bc"]))
  = Ok (PyList (map PyString ["a"; "bc"])).
Proof.
  split.
  - apply (proj1 homogeneous_list_roundtrip [2; 3; 4]).
    + simpl; lia.
    + repeat constructor; unfold INT_MIN, INT_MAX; lia.
  - apply (proj2 (proj2 (proj2 homogeneous_list_roundtrip)) ["a"; "bc"]).
    + simpl; lia.
    + repeat constructor; unfold no_NUL; simpl; intuition discriminate.
Defined.

(** ** Host to guest and back *)

Lemma r_to_py_vector_long (x : SEXP) :
  is_typed_vector x = true -> (2 <= LENGTH x) ->
  has_dim x = false -> inherits x "py_object" = false ->
  r_to_py x =
  match x with
  | RInteger v _ => Ok (PyList (map PyInt_FromLong v))
  | RNumeric v _ => Ok (PyList (map PyFloat_FromDouble v))
  | RLogical v _ => Ok (PyList (map PyBool_FromLong v))
  | RCharacter v _ => Ok (PyList (map (fun e => PyString_FromString (CHAR e)) v))
  | _ => r_to_py x
  end.
Proof.
  intros Hvec Hlen Hdim Hcls.
  assert (Hnull : isNULL x = false) by (destruct x; try discriminate Hvec; reflexivity).
  rewrite (r_to_py_after_guards x Hnull Hcls Hdim).
  destruct x as [|v a|v a|v a|v a| | |]; try discriminate Hvec;
    cbn [LENGTH] in Hlen;
    (assert (Hlen' : (2 <= List.length v)%nat) by lia);
    destruct (two_or_more v Hlen') as (i & j & w & ->); reflexivity.
Qed.

(** A typed vector of two or more elements without [dim] or wrapper
    class comes back with the same elements, in order, and without its
    other attributes (names included), provided its integers are C
    [int]s, its logicals 0 or 1 and its strings present and free of NUL
    bytes. *)
Theorem typed_vector_roundtrip (x : SEXP) :
  is_typed_vector x = true -> (2 <= LENGTH x) ->
  has_dim x = false -> inherits x "py_object" = false ->
  plain_elements x ->
  roundtrip x = Ok (with_attributes x no_attributes).
Proof.
  intros Hvec Hlen Hdim Hcls Hplain.
  unfold roundtrip. rewrite (r_to_py_vector_long x Hvec Hlen Hdim Hcls).
  destruct x as [|v a|v a|v a|v a| | |]; try discriminate Hvec;
    cbn [LENGTH] in Hlen;
    (assert (Hne : v <> []) by (destruct v; [simpl in Hlen; lia|discriminate]));
    cbn [bind with_attributes];
    rewrite py_to_r_list; cbv zeta.
  - (* logical *)
    rewrite (scalar_list_type_map LGLSXP PyBool_FromLong v); try discriminate;
      [|exact Hne|reflexivity].
    cbn [Z.eqb LGLSXP INTSXP REALSXP Pos.eqb]. do 2 f_equal.
    rewrite map_map. apply map_id_on. cbn [plain_elements] in Hplain.
    eapply Forall_impl; [|exact Hplain]. intros z [-> | ->]; reflexivity.
  - (* integer *)
    rewrite (scalar_list_type_map INTSXP PyInt_FromLong v); try discriminate;
      [|exact Hne|reflexivity].
    cbn [Z.eqb INTSXP REALSXP Pos.eqb]. do 2 f_equal.
    rewrite map_map. apply map_id_on. cbn [plain_elements] in Hplain.
    eapply Forall_impl; [|exact Hplain]. intros z Hz.
    cbn. now apply int_of_long_in_range.
  - (* numeric *)
    rewrite (scalar_list_type_map REALSXP PyFloat_FromDouble v); try discriminate;
      [|exact Hne|reflexivity].
    cbn [Z.eqb REALSXP Pos.eqb]. do 2 f_equal.
    rewrite map_map. apply map_id_on. apply Forall_forall. reflexivity.
  - (* character *)
    rewrite (scalar_list_type_map STRSXP (fun e => PyString_FromString (CHAR e)) v);
      try discriminate; [|exact Hne|reflexivity].
    cbn [Z.eqb STRSXP LGLSXP INTSXP REALSXP Pos.eqb].
    replace (mapM _ (map _ v)) with (Ok (A := list CHARSXP) v); [reflexivity|].
    symmetry. apply mapM_Ok_iff. cbn [plain_elements] in Hplain. clear -Hplain.
    induction Hplain as [|c v (s & -> & Hs) _ IH]; simpl; constructor; [|exact IH].
    unfold PyString_FromString. cbn. now rewrite !(c_str_no_NUL s Hs).
Qed.

Lemma typed_vector_roundtrip_witness :
  roundtrip (RInteger [1; NA_INTEGER; 3]
                      (mkAttributes None (Some [mkChar "a"; mkChar "b"; mkChar "c"]) []))
  = Ok (RInteger [1; NA_INTEGER; 3] no_attributes).
Proof.
  apply (typed_vector_roundtrip
           (RInteger [1; NA_INTEGER; 3]
                     (mkAttributes None (Some [mkChar "a"; mkChar "b"; mkChar "c"]) []))
           eq_refl ltac:(simpl; lia) eq_refl eq_refl).
  repeat constructor; unfold NA_INTEGER, INT_MIN, INT_MAX; lia.
Defined.

(** A typed vector of length zero does not come back as a typed vector:
    it becomes the empty guest list, which converts to the empty generic
    list. *)
Theorem empty_vector_comes_back_generic (x : SEXP) :
  is_typed_vector x = true -> LENGTH x = 0 ->
  has_dim x = false -> inherits x "py_object" = false ->
  roundtrip x = Ok (RList [] no_attributes).
Proof.
  intros Hvec Hlen Hdim Hcls.
  assert (Hnull : isNULL x = false) by (destruct x; try discriminate Hvec; reflexivity).
  unfold roundtrip. rewrite (r_to_py_after_guards x Hnull Hcls Hdim).
  destruct x as [|v a|v a|v a|v a| | |]; try discriminate Hvec;
    destruct v; try reflexivity; simpl in Hlen; lia.
Qed.

Lemma empty_vector_comes_back_generic_witness :
  roundtrip (RNumeric [] no_attributes) = Ok (RList [] no_attributes).
Proof.
  apply (empty_vector_comes_back_generic (RNumeric [] no_attributes)
           eq_refl eq_refl eq_refl eq_refl).
Defined.

(** ** Arrays *)






(** ** Dicts and named lists *)

Lemma set_by_name_fresh (l : list (string * SEXP)) (name : string) (value : SEXP) :
  ~ In name (map fst l) -> set_by_name l name value = (l ++ [(name, value)])%list.
Proof.
  induction l as [|[n v] l IH]; simpl; intros H; [reflexivity|].
  destruct (String.eqb_spec n name) as [E|_]; [exfalso; apply H; left; exact E|].
  rewrite IH; [reflexivity|]. intros Hin; apply H; right; exact Hin.
Qed.

Lemma dict_entries_distinct (f : PyObject -> result SEXP)
    (values : list PyObject) (rs : list SEXP) :
  Forall2 (fun v r => f v = Ok r) values rs ->
  forall (keys : list string) (acc : list (string * SEXP)),
    List.length keys = List.length values ->
    NoDup (map fst acc ++ map c_str keys)%list ->
    dict_entries f (combine (map PyString keys) values) acc
    = Ok (acc ++ combine (map c_str keys) rs)%list.
Proof.
  induction 1 as [|v r values rs Hv _ IH]; intros keys acc Hlen Hnodup.
  - destruct keys; [|discriminate]. simpl. now rewrite app_nil_r.
  - destruct keys as [|k keys]; [discriminate|]. simpl. rewrite Hv. simpl.
    simpl in Hnodup. apply NoDup_remove in Hnodup. destruct Hnodup as [Hnodup Hfresh].
    rewrite set_by_name_fresh
      by (intros Hin; apply Hfresh, in_or_app; left; exact Hin).
    rewrite IH.
    + rewrite <- app_assoc. reflexivity.
    + simpl in Hlen. congruence.
    + rewrite map_app. simpl. rewrite <- app_assoc. simpl.
      apply NoDup_Add with (a := c_str k) (l := (map fst acc ++ map c_str keys)%list).
      * apply Add_app.
      * split; assumption.
Qed.

Lemma named_list_combine (names : list string) (rs : list SEXP) :
  List.length names = List.length rs -> rs <> [] ->
  named_list (combine names rs)
  = RList rs (mkAttributes None (Some (map mkChar names)) []).
Proof.
  intros Hlen Hne. unfold named_list.
  destruct (combine names rs) as [|p l] eqn:E.
  - destruct names, rs; try discriminate; congruence.
  - rewrite <- E. f_equal.
    + clear E Hne. revert rs Hlen.
      induction names as [|n names IH]; intros [|r rs] Hlen; try discriminate;
        simpl; [reflexivity|]. f_equal. apply IH. simpl in Hlen. congruence.
    + f_equal. f_equal. clear E Hne. revert rs Hlen.
      induction names as [|n names IH]; intros [|r rs] Hlen; try discriminate;
        simpl; [reflexivity|]. f_equal. apply IH. simpl in Hlen. congruence.
Qed.

Lemma py_to_r_dict_distinct (keys : list string) (values : list PyObject)
    (rs : list SEXP) :
  List.length keys = List.length values ->
  NoDup (map c_str keys) ->
  Forall2 (fun v r => py_to_r v = Ok r) values rs ->
  py_to_r (PyDict (combine (map PyString keys) values))
  = Ok (match rs with
        | [] => RList [] no_attributes
        | _ => RList rs (mkAttributes None (Some (map (fun k => mkChar (c_str k)) keys)) [])
        end).
Proof.
  intros Hlen Hnodup Hvalues.
  change (py_to_r (PyDict (combine (map PyString keys) values)))
    with (rlist <- dict_entries py_to_r (combine (map PyString keys) values) [] ;;
          Ok (named_list rlist)).
  rewrite (dict_entries_distinct py_to_r values rs Hvalues keys [] Hlen Hnodup).
  cbn [bind app]. f_equal.
  pose proof (Forall2_length Hvalues) as Hlen2.
  destruct rs as [|r rs].
  - destruct values; [|discriminate]. destruct keys; [reflexivity|discriminate].
  - rewrite named_list_combine; [|rewrite length_map; congruence|discriminate].
    rewrite map_map. reflexivity.
Qed.

(** A guest dict whose keys are strings, pairwise different as C
    strings, converts to a generic list of the converted values in the
    dict's order, named by the keys; the empty dict converts to the
    empty list without names. *)
Theorem dict_to_named_list (keys : list string) (values : list PyObject)
    (rs : list SEXP) :
  List.length keys = List.length values ->
  NoDup (map c_str keys) ->
  Forall2 (fun v r => py_to_r v = Ok r) values rs ->
  py_to_r (PyDict (combine (map PyString keys) values))
  = Ok (match rs with
        | [] => RList [] no_attributes
        | _ => RList rs (mkAttributes None (Some (map (fun k => mkChar (c_str k)) keys)) [])
        end).
Proof. apply py_to_r_dict_distinct. Qed.

Lemma dict_to_named_list_witness :
  py_to_r (PyDict (combine (map PyString ["a"; "b"])
                           [PyBool true; PyList [PyInt 2; PyInt 3; PyInt 4]]))
  = Ok (RList [RLogical [1] no_attributes; RInteger [2; 3; 4] no_attributes]
              (mkAttributes None (Some [mkChar "a"; mkChar "b"]) [])).
Proof.
  apply (dict_to_named_list ["a"; "b"]
           [PyBool true; PyList [PyInt 2; PyInt 3; PyInt 4]]
           [RLogical [1] no_attributes; RInteger [2; 3; 4] no_attributes] eq_refl).
  - repeat constructor; simpl; intuition discriminate.
  - constructor; [reflexivity|]. constructor; [reflexivity|]. constructor.
Defined.








Lemma roundtrip_elements (v : list SEXP) (rs : list SEXP) :
  Forall2 (fun e r => roundtrip e = Ok r) v rs ->
  exists items, Forall2 (fun e item => r_to_py e = Ok item) v items /\
                Forall2 (fun item r => py_to_r item = Ok r) items rs.
Proof.
  induction 1 as [|e r v rs He _ (items & H1 & H2)].
  - exists []. split; constructor.
  - unfold roundtrip in He. destruct (r_to_py e) as [item| |] eqn:E; try discriminate.
    exists (item :: items). split; constructor; assumption.
Qed.

(** A generic list without names (and without [dim] or wrapper class)
    comes back as the generic list of its elements' round trips, by way
    of a guest tuple. *)
Theorem unnamed_list_roundtrip (v : list SEXP) (a : attributes) (rs : list SEXP) :
  attr_names a = None -> has_dim (RList v a) = false ->
  inherits (RList v a) "py_object" = false ->
  Forall2 (fun e r => roundtrip e = Ok r) v rs ->
  roundtrip (RList v a) = Ok (RList rs no_attributes).
Proof.
  intros Hnames Hdim Hcls Hrs.
  destruct (roundtrip_elements v rs Hrs) as (items & H1 & H2).
  unfold roundtrip.
  rewrite (r_to_py_after_guards (RList v a) eq_refl Hcls Hdim), Hnames.
  apply mapM_Ok_iff in H1. rewrite H1. cbn [bind].
  apply py_to_r_tuple_plain; [exact H2|exact I].
Qed.

Lemma unnamed_list_roundtrip_witness :
  roundtrip (RList [RNumeric [1.5%float] no_attributes; R_NilValue] no_attributes)
  = Ok (RList [RNumeric [1.5%float] no_attributes; R_NilValue] no_attributes).
Proof.
  apply (unnamed_list_roundtrip
           [RNumeric [1.5%float] no_attributes; R_NilValue] no_attributes
           [RNumeric [1.5%float] no_attributes; R_NilValue] eq_refl eq_refl eq_refl).
  constructor; [reflexivity|]. constructor; [reflexivity|]. constructor.
Defined.



(** Of two elements with the same name only the second survives: the
    list of two comes back as a list of one, the second element's round
    trip under that name (the first must still convert). *)
Theorem duplicate_name_keeps_last (e1 e2 : SEXP) (name : CHARSXP)
    (item1 : PyObject) (r2 : SEXP) :
  r_to_py e1 = Ok item1 -> roundtrip e2 = Ok r2 ->
  roundtrip (RList [e1; e2] (mkAttributes None (Some [name; name]) []))
  = Ok (RList [r2] (mkAttributes None (Some [mkChar (c_str (CHAR name))]) [])).
Proof.
  intros H1 H2. unfold roundtrip in *.
  destruct (r_to_py e2) as [item2| |] eqn:E2; try discriminate H2. simpl in H2.
  rewrite (r_to_py_after_guards
             (RList [e1; e2] (mkAttributes None (Some [name; name]) []))
             eq_refl eq_refl eq_refl).
  cbn [attr_names set_items]. rewrite H1. cbn [bind]. rewrite E2. cbn [bind].
  cbn [PyDict_SetItemString is_key]. rewrite String.eqb_refl.
  change (py_to_r (PyDict [(PyString (c_str (CHAR name)), item2)]))
    with (rlist <- dict_entries py_to_r [(PyString (c_str (CHAR name)), item2)] [] ;;
          Ok (named_list rlist)).
  cbn [dict_entries PyString_AsString read_c_string bind]. rewrite H2.
  cbn [bind set_by_name named_list map fst snd]. rewrite c_str_idempotent.
  reflexivity.
Qed.

Lemma duplicate_name_keeps_last_witness :
  roundtrip (RList [RNumeric [1%float] no_attributes; RNumeric [2%float] no_attributes]
                   (mkAttributes None (Some [mkChar "a"; mkChar "a"]) []))
  = Ok (RList [RNumeric [2%float] no_attributes]
              (mkAttributes None (Some [mkChar "a"]) [])).
Proof.
  apply (duplicate_name_keeps_last
           (RNumeric [1%float] no_attributes) (RNumeric [2%float] no_attributes)
           (mkChar "a") (PyFloat 1%float) (RNumeric [2%float] no_attributes)
           eq_refl eq_refl).
Defined.

(** ** What [py_to_r] can and cannot answer *)

Section PyObject_induction.

Variable P : PyObject -> Prop.
Hypothesis P_None : P Py_None.
Hypothesis P_Bool : forall b, P (PyBool b).
Hypothesis P_Int : forall v, P (PyInt v).
Hypothesis P_Long : forall v, P (PyLong v).
Hypothesis P_Float : forall f, P (PyFloat f).
Hypothesis P_String : forall s, P (PyString s).
Hypothesis P_List : forall items, Forall P items -> P (PyList items).
Hypothesis P_Tuple : forall items fields, Forall P items -> P (PyTuple items fields).
Hypothesis P_Dict :
  forall entries, Forall (fun kv => P (snd kv)) entries -> P (PyDict entries).
Hypothesis P_Array : forall typenum dims data, P (PyArray typenum dims data).
Hypothesis P_Instance : forall m n c attrs, P (PyInstance m n c attrs).


End PyObject_induction.













(** ** What [r_to_py] can and cannot answer *)

Section SEXP_induction.

Variable P : SEXP -> Prop.
Hypothesis P_Nil : P R_NilValue.
Hypothesis P_Logical : forall v a, P (RLogical v a).
Hypothesis P_Integer : forall v a, P (RInteger v a).
Hypothesis P_Numeric : forall v a, P (RNumeric v a).
Hypothesis P_Character : forall v a, P (RCharacter v a).
Hypothesis P_RList : forall v a, Forall P v -> P (RList v a).
Hypothesis P_ExtPtr : forall p a, P (RExtPtr p a).
Hypothesis P_Other : forall t a, P (ROther t a).


End SEXP_induction.




(** ** Errors of the guest *)

Lemma stop_py_error_message {A : Type} (PyObject_Str : PyObject -> api PyObject)
    (err : PyErrState) (value : PyObject) (s : string) :
  curexc_value err = Some value ->
  PyObject_Str value = Returned (PyString s) ->
  stop_py_error (A := A) PyObject_Str err = Stop (c_str s).
Proof.
  intros Hv Hs. unfold stop_py_error, py_fetch_error, PyErr_Fetch.
  rewrite Hv, Hs. reflexivity.
Qed.

(** The error indicator can be fetched once: whenever [py_fetch_error]
    returns a message, it leaves the indicator empty, and fetching again
    gives ["<unknown error>"]. *)
Theorem error_is_fetched_once (PyObject_Str : PyObject -> api PyObject)
    (tstate after : PyErrState) (msg : string) :
  py_fetch_error PyObject_Str tstate = (Ok msg, after) ->
  after = no_error /\
  py_fetch_error PyObject_Str after = (Ok "<unknown error>", no_error).
Proof.
  unfold py_fetch_error at 1, PyErr_Fetch at 1.
  destruct (curexc_value tstate) as [value|].
  - destruct (PyObject_Str value) as [pStr|err]; intros H; inversion H; subst.
    split; reflexivity.
  - intros H; inversion H; subst. split; reflexivity.
Qed.

Lemma error_is_fetched_once_witness :
  no_error = no_error /\
  py_fetch_error str_of_strings no_error = (Ok "<unknown error>", no_error).
Proof.
  apply (error_is_fetched_once str_of_strings pending_ValueError no_error
           "invalid literal for int() with base 10: 'x'" eq_refl).
Defined.

(** Every entry point that calls into the guest turns a raised
    exception into a host fault whose message is the [str()] of the
    exception value, read as a C string: a call, an import, the
    evaluation of source text, [str()] itself, an attribute lookup. *)
Theorem guest_error_becomes_fault
    (PyObject_Str : PyObject -> api PyObject)
    (AttributeError : PyObject -> string -> PyErrState)
    (PyObject_Call : PyObject -> PyObject -> PyObject -> api PyObject)
    (PyImport_ImportModule : string -> api PyObject)
    (PyRun_String : string -> api PyObject)
    (err : PyErrState) (value : PyObject) (s : string) :
  curexc_value err = Some value ->
  PyObject_Str value = Returned (PyString s) ->
  (forall x args pyArgs,
     mapM r_to_py args = Ok pyArgs ->
     PyObject_Call x (PyTuple pyArgs None) (PyDict []) = Raised err ->
     py_call PyObject_Str PyObject_Call x args [] None = Stop (c_str s)) /\
  (forall module,
     PyImport_ImportModule (c_str module) = Raised err ->
     py_import PyObject_Str PyImport_ImportModule module = Stop (c_str s)) /\
  (forall code,
     PyRun_String (c_str code) = Raised err ->
     py_run_string PyObject_Str PyRun_String code = Stop (c_str s)) /\
  (forall x,
     PyObject_Str x = Raised err -> py_str PyObject_Str x = Stop (c_str s)) /\
  (forall x name,
     PyObject_GetAttrString x name = None -> AttributeError x name = err ->
     py_get_attr PyObject_Str AttributeError x name = Stop (c_str s)).
Proof.
  intros Hv Hs.
  pose proof (fun A => stop_py_error_message (A := A) PyObject_Str err value s Hv Hs) as E.
  refine (conj _ (conj _ (conj _ (conj _ _)))).
  - intros x args pyArgs Hargs Hcall. unfold py_call.
    rewrite Hargs. cbn [bind List.length Z.of_nat Z.ltb Z.compare]. rewrite Hcall. apply E.
  - intros module H. unfold py_import. rewrite H. apply E.
  - intros code H. unfold py_run_string. rewrite H. apply E.
  - intros x H. unfold py_str. rewrite H. apply E.
  - intros x name H <-. unfold py_get_attr. rewrite H.
    exact (stop_py_error_message PyObject_Str _ value s Hv Hs).
Qed.

Lemma guest_error_becomes_fault_witness :
  py_call str_of_strings always_raises (PyString "int")
          [RCharacter [mkChar "x"] no_attributes] [] None
  = Stop "invalid literal for int() with base 10: 'x'".
Proof.
  apply (proj1 (guest_error_becomes_fault str_of_strings no_such_attribute
                  always_raises (fun _ => Raised pending_ValueError)
                  (fun _ => Raised pending_ValueError)
                  pending_ValueError
                  (PyString "invalid literal for int() with base 10: 'x'")
                  "invalid literal for int() with base 10: 'x'" eq_refl eq_refl)
           (PyString "int") [RCharacter [mkChar "x"] no_attributes]
           [PyString "x"] eq_refl eq_refl).
Defined.

(** ** Calls *)

Lemma mapM_first_Stop {A B : Type} (f : A -> result B) (before after : list A)
    (bad : A) (msg : string) :
  Forall (fun a => exists b, f a = Ok b) before -> f bad = Stop msg ->
  mapM f (before ++ bad :: after)%list = Stop msg.
Proof.
  induction 1 as [|a before [b Hb] _ IH]; intros Hbad; simpl.
  - rewrite Hbad. reflexivity.
  - rewrite Hb. simpl. rewrite (IH Hbad). reflexivity.
Qed.

(** Arguments are converted from left to right before anything is
    called: when a positional argument cannot be converted and all
    before it can, [py_call] raises that argument's fault, whatever the
    callable, the later arguments and the keywords are. *)
Theorem py_call_first_bad_argument
    (PyObject_Str : PyObject -> api PyObject)
    (PyObject_Call : PyObject -> PyObject -> PyObject -> api PyObject)
    (x : PyObject) (before after : list SEXP) (bad : SEXP) (msg : string)
    (keywords : list SEXP) (keyword_names : option (list CHARSXP)) :
  Forall (fun e => exists item, r_to_py e = Ok item) before ->
  r_to_py bad = Stop msg ->
  py_call PyObject_Str PyObject_Call x (before ++ bad :: after)%list
          keywords keyword_names
  = Stop msg.
Proof.
  intros Hbefore Hbad. unfold py_call.
  rewrite (mapM_first_Stop r_to_py before after bad msg Hbefore Hbad). reflexivity.
Qed.

Lemma py_call_first_bad_argument_witness :
  py_call str_of_strings returns_first_argument (PyString "f")
          ([RInteger [1] no_attributes] ++ ROther CLOSXP no_attributes
             :: [ROther ENVSXP no_attributes])%list
          [] None
  = Stop "Unable to convert R object to python type".
Proof.
  apply (py_call_first_bad_argument str_of_strings returns_first_argument
           (PyString "f") [RInteger [1] no_attributes]
           [ROther ENVSXP no_attributes] (ROther CLOSXP no_attributes)
           "Unable to convert R object to python type" [] None).
  - constructor; [eexists; reflexivity|constructor].
  - reflexivity.
Defined.

(** Without keywords the callable is given the tuple of the converted
    arguments and an empty dict, and what it returns is converted by
    [py_to_r]: calling something that returns its only argument gives
    the argument's round trip. *)
Theorem py_call_returning_its_argument
    (PyObject_Str : PyObject -> api PyObject)
    (PyObject_Call : PyObject -> PyObject -> PyObject -> api PyObject)
    (x : PyObject) (e : SEXP) (g : PyObject) :
  r_to_py e = Ok g ->
  PyObject_Call x (PyTuple [g] None) (PyDict []) = Returned g ->
  py_call PyObject_Str PyObject_Call x [e] [] None = roundtrip e.
Proof.
  intros He Hcall. unfold py_call, roundtrip, mapM. rewrite He.
  cbn [bind List.length Z.of_nat Z.ltb Z.compare]. rewrite Hcall. reflexivity.
Qed.

Lemma py_call_returning_its_argument_witness :
  py_call str_of_strings returns_first_argument (PyString "identity")
          [RNumeric [1%float; 2%float] (mkAttributes (Some [2; 1]) None [])] [] None
  = roundtrip (RNumeric [1%float; 2%float] (mkAttributes (Some [2; 1]) None [])).
Proof.
  apply (py_call_returning_its_argument str_of_strings returns_first_argument
           (PyString "identity")
           (RNumeric [1%float; 2%float] (mkAttributes (Some [2; 1]) None []))
           (PyArray NPY_DOUBLE [2; 1] [NpyFloat 1%float; NpyFloat 2%float])
           eq_refl eq_refl).
Defined.

(** Keywords are passed under their names, in order, after all
    positional arguments: with arguments and keywords that convert and
    one name per keyword, the callable is given the tuple of the
    arguments and the dict [dict_of] builds from names and keywords. *)
Theorem py_call_passes_keywords
    (PyObject_Str : PyObject -> api PyObject)
    (PyObject_Call : PyObject -> PyObject -> PyObject -> api PyObject)
    (x : PyObject) (args keywords : list SEXP) (names : list CHARSXP)
    (pyArgs pyKeywords : list PyObject) (res : PyObject) :
  Forall2 (fun e item => r_to_py e = Ok item) args pyArgs ->
  Forall2 (fun e item => r_to_py e = Ok item) keywords pyKeywords ->
  (List.length keywords <= List.length names)%nat ->
  PyObject_Call x (PyTuple pyArgs None) (PyDict (dict_of names pyKeywords))
  = Returned res ->
  py_call PyObject_Str PyObject_Call x args keywords (Some names) = py_to_r res /\
  string_keys (dict_of names pyKeywords).
Proof.
  intros Hargs Hkw Hlen Hcall. split; [|apply dict_of_string_keys].
  unfold py_call. apply mapM_Ok_iff in Hargs. rewrite Hargs. cbn [bind].
  destruct keywords as [|k keywords].
  - inversion Hkw; subst. cbn [List.length Z.of_nat Z.ltb Z.compare bind].
    unfold dict_of in Hcall. rewrite combine_nil in Hcall. simpl in Hcall.
    rewrite Hcall. reflexivity.
  - replace (0 <? Z.of_nat (List.length (k :: keywords))) with true
      by (symmetry; apply Z.ltb_lt; simpl; lia).
    rewrite (set_items_Ok r_to_py (k :: keywords) pyKeywords Hkw names [] Hlen).
    cbn [bind]. fold (dict_of names pyKeywords). rewrite Hcall. reflexivity.
Qed.

Lemma py_call_passes_keywords_witness :
  py_call str_of_strings returns_keyword_x (PyString "f") []
          [RLogical [1] no_attributes] (Some [mkChar "x"])
  = py_to_r (PyBool true).
Proof.
  refine (proj1 (py_call_passes_keywords str_of_strings returns_keyword_x (PyString "f")
                   [] [RLogical [1] no_attributes] [mkChar "x"] [] [PyBool true]
                   (PyBool true) (Forall2_nil _) _ (le_n 1) eq_refl)).
  constructor; [reflexivity|constructor].
Defined.

(** Keywords without names are refused before anything is converted
    or called: a non-empty keyword list with no [names] attribute makes
    [py_call] raise a fault once the positional arguments have been
    converted. *)
Theorem py_call_unnamed_keywords
    (PyObject_Str : PyObject -> api PyObject)
    (PyObject_Call : PyObject -> PyObject -> PyObject -> api PyObject)
    (x : PyObject) (args : list SEXP) (pyArgs : list PyObject)
    (keyword : SEXP) (keywords : list SEXP) :
  Forall2 (fun e item => r_to_py e = Ok item) args pyArgs ->
  exists msg,
    py_call PyObject_Str PyObject_Call x args (keyword :: keywords) None = Stop msg.
Proof.
  intros Hargs. unfold py_call. apply mapM_Ok_iff in Hargs. rewrite Hargs. cbn [bind].
  replace (0 <? Z.of_nat (List.length (keyword :: keywords))) with true
    by (symmetry; apply Z.ltb_lt; simpl; lia).
  eexists; reflexivity.
Qed.

Lemma py_call_unnamed_keywords_witness :
  exists msg,
    py_call str_of_strings returns_first_argument (PyString "f") []
            [RLogical [1] no_attributes] None
    = Stop msg.
Proof.
  apply (py_call_unnamed_keywords str_of_strings returns_first_argument
           (PyString "f") [] [] (RLogical [1] no_attributes) [] (Forall2_nil _)).
Defined.

(** ** Bootstrap and file execution, when they succeed or fail late *)

(** When the library loads (or on Apple, where it is not opened at all)
    and numpy imports, [py_initialize] makes exactly these calls in this
    order and returns: [dlopen] (not on Apple), [Py_Initialize],
    [PySys_SetArgv] with the single argument ["python"], the numpy
    import.  On Apple neither [dlopen] nor [dlerror] is ever called,
    whatever the library path is. *)
Theorem bootstrap_sequence (PyObject_Str : PyObject -> api PyObject)
    (sys : system) (lib : string) (u : unit) :
  import_array sys = Returned u ->
  (APPLE sys = true ->
     py_initialize PyObject_Str sys lib
     = ([Ev_Py_Initialize; Ev_PySys_SetArgv ["python"]; Ev_import_array], Ok tt)) /\
  (APPLE sys = false -> dlopen sys lib (Z.lor RTLD_NOW RTLD_GLOBAL) = true ->
     py_initialize PyObject_Str sys lib
     = ([Ev_dlopen lib (Z.lor RTLD_NOW RTLD_GLOBAL); Ev_Py_Initialize;
         Ev_PySys_SetArgv ["python"]; Ev_import_array], Ok tt)).
Proof.
  intros Himport. split.
  - intros Happle. unfold py_initialize, py_import_numpy_array_api.
    rewrite Happle, Himport. reflexivity.
  - intros Happle Hopen. set (flags := Z.lor RTLD_NOW RTLD_GLOBAL) in *.
    unfold py_initialize, py_import_numpy_array_api.
    rewrite Happle. fold flags. unfold io_call at 1. simpl io_bind.
    rewrite Hopen, Himport. reflexivity.
Qed.

Lemma bootstrap_sequence_witness :
  py_initialize str_of_strings apple_no_lib "/no/such/libpython.dylib"
  = ([Ev_Py_Initialize; Ev_PySys_SetArgv ["python"]; Ev_import_array], Ok tt) /\
  py_initialize str_of_strings linux_ok "libpython2.7.so"
  = ([Ev_dlopen "libpython2.7.so" 258; Ev_Py_Initialize;
      Ev_PySys_SetArgv ["python"]; Ev_import_array], Ok tt).
Proof.
  split.
  - apply (proj1 (bootstrap_sequence str_of_strings apple_no_lib
                    "/no/such/libpython.dylib" tt eq_refl) eq_refl).
  - apply (proj2 (bootstrap_sequence str_of_strings linux_ok "libpython2.7.so" tt eq_refl)
             eq_refl eq_refl).
Defined.

(** When the numpy import fails, the interpreter has already been
    initialised and given its [argv], and the fault raised carries the
    [str()] of the pending exception value. *)
Theorem bootstrap_import_failure (PyObject_Str : PyObject -> api PyObject)
    (sys : system) (lib : string) (err : PyErrState) (value : PyObject) (s : string) :
  import_array sys = Raised err ->
  curexc_value err = Some value ->
  PyObject_Str value = Returned (PyString s) ->
  (APPLE sys = true \/ dlopen sys lib (Z.lor RTLD_NOW RTLD_GLOBAL) = true) ->
  snd (py_initialize PyObject_Str sys lib) = Stop (c_str s) /\
  exists before,
    fst (py_initialize PyObject_Str sys lib)
    = (before ++ [Ev_Py_Initialize; Ev_PySys_SetArgv ["python"]; Ev_import_array])%list.
Proof.
  intros Himport Hv Hs Hload.
  assert (E : fst (py_fetch_error PyObject_Str err) = Ok (c_str s)).
  { unfold py_fetch_error, PyErr_Fetch. rewrite Hv, Hs. reflexivity. }
  set (flags0 := Z.lor RTLD_NOW RTLD_GLOBAL) in Hload.
  unfold py_initialize, py_import_numpy_array_api.
  fold flags0.
  destruct (APPLE sys) eqn:Happle.
  - rewrite Himport. simpl. rewrite E. simpl. split; [reflexivity|].
    exists []. reflexivity.
  - destruct Hload as [H|Hopen]; [discriminate H|].
    unfold io_call at 1. simpl io_bind. rewrite Hopen, Himport. simpl.
    rewrite E. simpl. split; [reflexivity|].
    exists [Ev_dlopen lib flags0]. reflexivity.
Qed.

Lemma bootstrap_import_failure_witness :
  snd (py_initialize str_of_strings linux_no_numpy "libpython2.7.so")
  = Stop "numpy.core.multiarray failed to import" /\
  exists before,
    fst (py_initialize str_of_strings linux_no_numpy "libpython2.7.so")
    = (before ++ [Ev_Py_Initialize; Ev_PySys_SetArgv ["python"]; Ev_import_array])%list.
Proof.
  apply (bootstrap_import_failure str_of_strings linux_no_numpy "libpython2.7.so"
           _ (PyString "numpy.core.multiarray failed to import")
           "numpy.core.multiarray failed to import" eq_refl eq_refl eq_refl).
  right. reflexivity.
Defined.

(** When the file opens, [py_run_file] runs it once, under the expanded
    path, and returns if the status is zero.  With a non-zero status it
    raises a fault; when the interpreter has left no exception value
    pending, the message is ["<unknown error>"]. *)
Theorem run_file_opened (PyObject_Str : PyObject -> api PyObject)
    (sys : system) (file : string) :
  fopen sys (path_expand sys file) "r" = true ->
  let expanded := path_expand sys file in
  fst (py_run_file PyObject_Str sys file)
  = [Ev_path_expand file; Ev_fopen expanded "r"; Ev_PyRun_SimpleFile expanded] /\
  (fst (PyRun_SimpleFile sys expanded) = 0 ->
     snd (py_run_file PyObject_Str sys file) = Ok tt) /\
  (fst (PyRun_SimpleFile sys expanded) <> 0 ->
     curexc_value (snd (PyRun_SimpleFile sys expanded)) = None ->
     snd (py_run_file PyObject_Str sys file) = Stop "<unknown error>").
Proof.
  intros Hopen expanded. subst expanded. unfold py_run_file, io_call. simpl io_bind.
  rewrite Hopen.
  destruct (PyRun_SimpleFile sys (path_expand sys file)) as [status pending] eqn:Erun.
  cbn [fst snd].
  destruct (Z.eqb_spec status 0) as [->|Hne]; cbn [negb].
  - refine (conj eq_refl (conj (fun _ => eq_refl) _)). intros H; contradiction.
  - unfold py_fetch_error, PyErr_Fetch.
    refine (conj _ (conj _ _)).
    + destruct (curexc_value pending) as [value|]; [|reflexivity].
      destruct (PyObject_Str value) as [pStr|err]; [|reflexivity].
      destruct (read_c_string (PyString_AsString pStr)); reflexivity.
    + intros H; contradiction.
    + intros _ Hnone. rewrite Hnone. reflexivity.
Qed.

Lemma run_file_opened_witness :
  fst (py_run_file str_of_strings scripts_fail "~/a.py")
  = [Ev_path_expand "~/a.py"; Ev_fopen "/home/user/a.py" "r";
     Ev_PyRun_SimpleFile "/home/user/a.py"] /\
  snd (py_run_file str_of_strings scripts_fail "~/a.py") = Stop "<unknown error>".
Proof.
  pose proof (run_file_opened str_of_strings scripts_fail "~/a.py" eq_refl) as H.
  cbv zeta in H. split.
  - exact (proj1 H).
  - apply (proj2 (proj2 H)); [discriminate|reflexivity].
Defined.

(** ** Attribute kinds, as a whole *)

(** [py_get_attribute_types] answers for all names or for none: when it
    returns, every name was found, and the result is an integer vector
    with one code per name, each of them 1, 2, 4 or 6. *)
Theorem attribute_types_all_or_nothing
    (PyObject_Str : PyObject -> api PyObject)
    (AttributeError : PyObject -> string -> PyErrState)
    (x : PyObject) (attributes : list string) (r : SEXP) :
  py_get_attribute_types PyObject_Str AttributeError x attributes = Ok r ->
  (forall name, In name attributes -> PyObject_GetAttrString x name <> None) /\
  exists types,
    r = RInteger types no_attributes /\
    List.length types = List.length attributes /\
    Forall (fun t => t = 1 \/ t = 2 \/ t = 4 \/ t = 6) types.
Proof.
  unfold py_get_attribute_types.
  destruct (mapM _ attributes) as [types| |] eqn:E; simpl; try discriminate.
  intros H; inversion H; subst. apply mapM_Ok_iff in E. split.
  - intros name Hin Hnone. clear H.
    induction E as [|n t names types Hn _ IH]; [contradiction|].
    destruct Hin as [->|Hin]; [|exact (IH Hin)].
    unfold py_get_attr in Hn. rewrite Hnone in Hn.
    destruct (stop_py_error PyObject_Str (AttributeError x name)) eqn:Es;
      try discriminate Hn.
    exact (stop_py_error_not_Ok _ _ _ Es).
  - exists types. split; [reflexivity|]. split.
    + symmetry. eapply Forall2_length; exact E.
    + clear H. induction E as [|n t names types Hn _ IH]; constructor; [|exact IH].
      unfold py_get_attr in Hn.
      destruct (PyObject_GetAttrString x n) as [attr|].
      * simpl in Hn. rewrite wrapper_as_pointer in Hn. simpl in Hn.
        inversion Hn. unfold attribute_type, VECTOR, ARRAY, LIST, FUNCTION.
        repeat match goal with
               | |- context [if ?c then _ else _] => destruct c
               end; tauto.
      * destruct (stop_py_error PyObject_Str (AttributeError x n)) eqn:Es;
          try discriminate Hn.
        exfalso. exact (stop_py_error_not_Ok _ _ _ Es).
Qed.

Lemma attribute_types_all_or_nothing_witness :
  (forall name, In name ["sqrt"; "flags"] ->
                PyObject_GetAttrString example_module name <> None) /\
  exists types,
    RInteger [6; 4] no_attributes = RInteger types no_attributes /\
    List.length types = List.length ["sqrt"; "flags"] /\
    Forall (fun t => t = 1 \/ t = 2 \/ t = 4 \/ t = 6) types.
Proof.
  apply (attribute_types_all_or_nothing str_of_strings no_such_attribute
           example_module ["sqrt"; "flags"] (RInteger [6; 4] no_attributes) eq_refl).
Defined.

(** ** Integers of a guest list *)

(** A list of guest [int]s converts to the integer vector of their
    values reduced to the range of a C [int] modulo 2^32: values in that
    range are kept, and every element of the result lies in it. *)
Theorem int_list_wraps (values : list Z) :
  values <> [] ->
  py_to_r (PyList (map PyInt values))
  = Ok (RInteger (map int_of_long values) no_attributes) /\
  Forall in_int_range (map int_of_long values) /\
  Forall2 (fun z i => (i - z) mod 2 ^ 32 = 0 /\ (in_int_range z -> i = z))
          values (map int_of_long values).
Proof.
  intros Hne. refine (conj _ (conj _ _)).
  - rewrite py_to_r_list. cbv zeta.
    rewrite (scalar_list_type_map INTSXP PyInt values); try discriminate;
      [|exact Hne|reflexivity].
    cbn [Z.eqb INTSXP REALSXP Pos.eqb]. rewrite map_map. reflexivity.
  - apply Forall_forall. intros i Hi. apply in_map_iff in Hi.
    destruct Hi as (z & <- & _). apply int_of_long_range.
  - clear Hne. induction values as [|z values IH]; simpl; constructor; [|exact IH].
    split; [|apply int_of_long_in_range].
    unfold int_of_long.
    replace ((z + 2 ^ 31) mod 2 ^ 32 - 2 ^ 31 - z)
      with ((z + 2 ^ 31) mod 2 ^ 32 - (z + 2 ^ 31)) by lia.
    rewrite Zminus_mod, Z.mod_mod, Z.sub_diag by lia. reflexivity.
Qed.

Lemma int_list_wraps_witness :
  py_to_r (PyList (map PyInt [2147483648; 7]))
  = Ok (RInteger (map int_of_long [2147483648; 7]) no_attributes).
Proof.
  apply (proj1 (int_list_wraps [2147483648; 7] ltac:(discriminate))).
Defined.

(** ** Dicts built from keys and items *)

(** [py_dict] reads one item per key: items beyond the number of keys
    are ignored; with fewer items than keys it raises a fault (when
    every key and item converts); and what it returns is a wrapper that
    [r_to_py] turns back into a dict. *)
Theorem py_dict_one_item_per_key
    (PyDict_SetItem : list (PyObject * PyObject) -> PyObject -> PyObject
                      -> list (PyObject * PyObject))
    (keys items : list SEXP) :
  (forall extra, List.length items = List.length keys ->
     py_dict PyDict_SetItem keys (items ++ extra)%list
     = py_dict PyDict_SetItem keys items) /\
  ((List.length items < List.length keys)%nat ->
   Forall (fun e => exists g, r_to_py e = Ok g) keys ->
   Forall (fun e => exists g, r_to_py e = Ok g) items ->
   exists msg, py_dict PyDict_SetItem keys items = Stop msg) /\
  (forall w, py_dict PyDict_SetItem keys items = Ok w ->
     exists entries, r_to_py w = Ok (PyDict entries)).
Proof.
  unfold py_dict.
  set (loop := fix next (keys items : list SEXP) (dict : list (PyObject * PyObject))
                 : result (list (PyObject * PyObject)) :=
                 match keys with
                 | [] => Ok dict
                 | k :: keys' =>
                     key <- r_to_py k ;;
                     match items with
                     | [] => Stop "index out of bounds"
                     | i :: items' =>
                         item <- r_to_py i ;;
                         next keys' items' (PyDict_SetItem dict key item)
                     end
                 end).
  refine (conj _ (conj _ _)).
  - intros extra Hlen. f_equal.
    generalize (@nil (PyObject * PyObject)) as dict.
    revert items Hlen. induction keys as [|k keys IH]; intros items Hlen dict.
    + destruct items; reflexivity.
    + destruct items as [|i items]; [discriminate|]. simpl.
      destruct (r_to_py k); simpl; try reflexivity.
      destruct (r_to_py i); simpl; try reflexivity.
      apply IH. simpl in Hlen. congruence.
  - intros Hlen Hkeys Hitems.
    assert (H : forall dict, exists msg, loop keys items dict = Stop msg).
    { revert items Hlen Hitems. induction Hkeys as [|k keys [key Hk] _ IH];
        intros items Hlen Hitems dict; [simpl in Hlen; lia|].
      simpl. rewrite Hk. simpl. destruct items as [|i items]; [eexists; reflexivity|].
      inversion Hitems as [|? ? [item Hi] Hrest]; subst. rewrite Hi. simpl.
      apply IH; [simpl in Hlen; lia|exact Hrest]. }
    destruct (H []) as [msg ->]. exists msg. reflexivity.
  - intros w. destruct (loop keys items []) as [dict| |]; simpl; try discriminate.
    intros H; inversion H; subst. exists dict. apply wrapper_passes_back_aux.
Qed.

Lemma py_dict_one_item_per_key_witness :
  exists msg,
    py_dict (fun d k v => (d ++ [(k, v)])%list)
            [RCharacter [mkChar "a"] no_attributes;
             RCharacter [mkChar "b"] no_attributes]
            [RInteger [1] no_attributes]
    = Stop msg.
Proof.
  apply (proj1 (proj2 (py_dict_one_item_per_key (fun d k v => (d ++ [(k, v)])%list)
                         [RCharacter [mkChar "a"] no_attributes;
                          RCharacter [mkChar "b"] no_attributes]
                         [RInteger [1] no_attributes]))).
  - simpl; lia.
  - constructor; [eexists; reflexivity|]. constructor; [eexists; reflexivity|constructor].
  - constructor; [eexists; reflexivity|constructor].
Defined.
